(** * iboardbot-web: the preview transform pipeline

    A shallow embedding of the browser-side preview editor
    ([static/js/scripts.js] and its two sibling revisions) and of the
    file-listing page, together with the properties of the fit, the
    placement read-out, the submit guard, the error paths and the
    selection handler.

    Three revisions of [scripts.js] are embedded, each in a module of
    its own:
    - [KonvaOffset]: the Konva revision whose [drawPreview] centres the
      group through [group.offset] (static/js/scripts.js);
    - [KonvaFit]: the Konva revision with [fitGroup] and the stage click
      handler;
    - [Fabric]: the fabric.js revision. *)

From Stdlib Require Import QArith Qminmax Lqa Lia PeanoNat.
From Stdlib Require Import List String Ascii Bool DecimalString.
Import ListNotations.

Local Open Scope Q_scope.

(** * JavaScript numbers

    A JavaScript number is modelled as an exact rational or one of the
    three special values.  Rounding and the sign of zero are left out:
    [x / 0] is [+Infinity] for positive [x]. *)

Module Num.

Inductive num : Type :=
| Fin (q : Q)
| PInf
| NInf
| NaN.

Definition zero : num := Fin 0.

Definition neg (a : num) : num :=
  match a with
  | Fin q => Fin (- q)
  | PInf => NInf
  | NInf => PInf
  | NaN => NaN
  end.

Definition add (a b : num) : num :=
  match a, b with
  | NaN, _ | _, NaN => NaN
  | Fin p, Fin q => Fin (p + q)
  | PInf, NInf | NInf, PInf => NaN
  | PInf, _ | _, PInf => PInf
  | NInf, _ | _, NInf => NInf
  end.

Definition sub (a b : num) : num := add a (neg b).

(** The infinity with the sign of [q], or [NaN] for zero. *)
Definition signed_inf (c : comparison) : num :=
  match c with
  | Gt => PInf
  | Lt => NInf
  | Eq => NaN
  end.

Definition mul (a b : num) : num :=
  match a, b with
  | NaN, _ | _, NaN => NaN
  | Fin p, Fin q => Fin (p * q)
  | Fin p, PInf | PInf, Fin p => signed_inf (p ?= 0)
  | Fin p, NInf | NInf, Fin p => signed_inf (0 ?= p)
  | PInf, PInf | NInf, NInf => PInf
  | PInf, NInf | NInf, PInf => NInf
  end.

Definition div (a b : num) : num :=
  match a, b with
  | NaN, _ | _, NaN => NaN
  | Fin p, Fin q =>
      if Qeq_bool q 0 then signed_inf (p ?= 0) else Fin (p / q)
  | Fin _, _ => Fin 0
  | PInf, Fin q => if Qle_bool 0 q then PInf else NInf
  | NInf, Fin q => if Qle_bool 0 q then NInf else PInf
  | _, _ => NaN
  end.

(** [a > b]: false as soon as one side is [NaN]. *)
Definition gt (a b : num) : bool :=
  match a, b with
  | NaN, _ | _, NaN => false
  | Fin p, Fin q => negb (Qle_bool p q)
  | PInf, PInf => false
  | PInf, _ => true
  | _, PInf => false
  | NInf, _ => false
  | Fin _, NInf => true
  end.

(** [Math.min] and [Math.max]. *)
Definition min (a b : num) : num :=
  match a, b with
  | NaN, _ | _, NaN => NaN
  | NInf, _ | _, NInf => NInf
  | PInf, c | c, PInf => c
  | Fin p, Fin q => Fin (Qmin p q)
  end.

Definition max (a b : num) : num :=
  match a, b with
  | NaN, _ | _, NaN => NaN
  | PInf, _ | _, PInf => PInf
  | NInf, c | c, NInf => c
  | Fin p, Fin q => Fin (Qmax p q)
  end.

(** Equality of values: rationals up to [==]. *)
Definition eq (a b : num) : Prop :=
  match a, b with
  | Fin p, Fin q => p == q
  | PInf, PInf | NInf, NInf | NaN, NaN => True
  | _, _ => False
  end.

(** The number is an ordinary rational equal to [q]. *)
Definition has_value (a : num) (q : Q) : Prop :=
  match a with
  | Fin p => p == q
  | _ => False
  end.

End Num.

Abbreviation num := Num.num.
Abbreviation Fin := Num.Fin.
Abbreviation PInf := Num.PInf.
Abbreviation NInf := Num.NInf.
Abbreviation NaN := Num.NaN.

Declare Scope num_scope.
Delimit Scope num_scope with num.
Bind Scope num_scope with Num.num.
Infix "+" := Num.add : num_scope.
Infix "-" := Num.sub : num_scope.
Infix "*" := Num.mul : num_scope.
Infix "/" := Num.div : num_scope.
Notation "a >? b" := (Num.gt a b) (at level 70, no associativity) : num_scope.
Notation "a =n= b" := (Num.eq a b) (at level 70, no associativity).

(** Integer literals of the source. *)
Definition lit (z : Z) : num := Fin (inject_Z z).

Local Open Scope string_scope.
Local Open Scope list_scope.

(** * What the page exchanges with its environment *)

(** A point of a decomposed image, as the preview endpoint sends it. *)
Record point : Type := { px : Q; py : Q }.

Definition polyline : Type := list point.

(** An HTTP response.  [json] is what [r.json()] resolves to: [None]
    when the body is not JSON (the promise rejects), the endpoint's
    payload, a JSON object (with or without a [details] field, already
    converted to a string) or [null]. *)
Inductive jsonBody (A : Type) : Type :=
| Payload (a : A)
| JsonObject (details : option string)
| JsonNull.
Arguments Payload {A} a.
Arguments JsonObject {A} details.
Arguments JsonNull {A}.

Record response (A : Type) : Type := { status : nat; json : option (jsonBody A) }.
Arguments status {A} r.
Arguments json {A} r.

(** [r.ok]: the status is in the range 200-299. *)
Definition ok {A} (r : response A) : bool :=
  Nat.leb 200 (status r) && Nat.leb (status r) 299.

(** The object handed to [JSON.stringify] by [printObject]. *)
Record PrintBody : Type := {
  svg : string;
  offset_x : num;
  offset_y : num;
  scale_x : num;
  scale_y : num;
  mode : string
}.

Inductive requestBody : Type :=
| PreviewBody (svg : string)
| PrintRequest (b : PrintBody).

(** An argument of a [console] call. *)
Inductive jsval : Type :=
| VNum (n : num)
| VStr (s : string)
| VFun (f : string).

(** What a handler does to the outside: [alert], [console.*], [fetch],
    an uncaught exception. *)
Inductive effect : Type :=
| Alert (msg : string)
| Console (level : string) (args : list jsval)
| Fetch (url : string) (method : string) (body : requestBody)
| Throw (what : string).

(** [`${n}`] for a status code. *)
Definition show_nat (n : nat) : string := NilZero.string_of_uint (Nat.to_uint n).

Definition is_fetch (e : effect) : bool :=
  match e with
  | Fetch _ _ _ => true
  | _ => false
  end.

(** The constants shared by the three revisions. *)
Definition IBB_WIDTH : num := lit 358.
Definition IBB_HEIGHT : num := lit 123.
Definition PREVIEW_SCALE_FACTOR : num := lit 3.

(** * The Konva scene graph

    The part of Konva the page relies on: groups of lines, the node
    transform (position, scale, offset; no rotation is ever set) and
    [getClientRect] with [skipShadow] and [skipStroke]. *)

Module Konva.

Record Rect : Type := { x : num; y : num; width : num; height : num }.

Record Line : Type := {
  points : list Q;
  stroke : string;
  hitStrokeWidth : Q
}.

Record Group : Type := {
  children : list Line;
  draggable : bool;
  name : string;
  posX : num;
  posY : num;
  scaleX : num;
  scaleY : num;
  offsetX : num;
  offsetY : num
}.

(** [new Konva.Group({draggable, name})]: no children, identity transform. *)
Definition new_Group (draggable : bool) (name : string) : Group :=
  {| children := []; draggable := draggable; name := name;
     posX := lit 0; posY := lit 0; scaleX := lit 1; scaleY := lit 1;
     offsetX := lit 0; offsetY := lit 0 |}.

Definition add (g : Group) (l : Line) : Group :=
  {| children := children g ++ [l]; draggable := draggable g; name := name g;
     posX := posX g; posY := posY g; scaleX := scaleX g; scaleY := scaleY g;
     offsetX := offsetX g; offsetY := offsetY g |}.

(** [group.offset({x, y})]. *)
Definition offset (g : Group) (ox oy : num) : Group :=
  {| children := children g; draggable := draggable g; name := name g;
     posX := posX g; posY := posY g; scaleX := scaleX g; scaleY := scaleY g;
     offsetX := ox; offsetY := oy |}.

(** [group.scale({x, y})]. *)
Definition scale (g : Group) (sx sy : num) : Group :=
  {| children := children g; draggable := draggable g; name := name g;
     posX := posX g; posY := posY g; scaleX := sx; scaleY := sy;
     offsetX := offsetX g; offsetY := offsetY g |}.

(** [group.position({x, y})]. *)
Definition position (g : Group) (nx ny : num) : Group :=
  {| children := children g; draggable := draggable g; name := name g;
     posX := nx; posY := ny; scaleX := scaleX g; scaleY := scaleY g;
     offsetX := offsetX g; offsetY := offsetY g |}.

(** [group.move({x, y})]: a relative move. *)
Definition move (g : Group) (dx dy : num) : Group :=
  position g (posX g + dx)%num (posY g + dy)%num.

(** Bounds of a flat list of coordinates [x0, y0, x1, y1, ...], from
    running minima and maxima. *)
Fixpoint extent (pts : list Q) (minX minY maxX maxY : Q) : Q * Q * Q * Q :=
  match pts with
  | px :: py :: rest =>
      extent rest (Qmin minX px) (Qmin minY py) (Qmax maxX px) (Qmax maxY py)
  | _ => (minX, minY, maxX, maxY)
  end.

(** [Line.getSelfRect]: the bounds of the points, stroke left out.
    The result is [(x, y, width, height)]. *)
Definition getSelfRect (l : Line) : Q * Q * Q * Q :=
  match points l with
  | x0 :: y0 :: _ :: _ :: _ =>
      let '(minX, minY, maxX, maxY) := extent (points l) x0 y0 x0 y0 in
      (minX, minY, maxX - minX, maxY - minY)
  | x0 :: y0 :: _ => (x0, y0, 0, 0)
  | [x0] => (x0, 0, 0, 0)
  | [] => (0, 0, 0, 0)
  end.

(** Union of the children's rectangles; a child whose rectangle has
    zero width and zero height is skipped.  The accumulator is
    [(minX, minY, maxX, maxY)], [None] until a child counts. *)
Fixpoint unionRects (ls : list Line) (acc : option (Q * Q * Q * Q))
  : option (Q * Q * Q * Q) :=
  match ls with
  | [] => acc
  | l :: rest =>
      let '(rx, ry, rw, rh) := getSelfRect l in
      if Qeq_bool rw 0 && Qeq_bool rh 0 then unionRects rest acc
      else
        match acc with
        | None => unionRects rest (Some (rx, ry, rx + rw, ry + rh))
        | Some (minX, minY, maxX, maxY) =>
            unionRects rest
              (Some (Qmin minX rx, Qmin minY ry,
                     Qmax maxX (rx + rw), Qmax maxY (ry + rh)))
        end
  end.

(** The group's own rectangle, before its transform is applied. *)
Definition selfRect (g : Group) : Rect :=
  match unionRects (children g) None with
  | Some (minX, minY, maxX, maxY) =>
      {| x := Fin minX; y := Fin minY;
         width := Fin (maxX - minX); height := Fin (maxY - minY) |}
  | None => {| x := lit 0; y := lit 0; width := lit 0; height := lit 0 |}
  end.

(** The node transform on one axis.  Konva multiplies the matrices of
    the translation to the position, of the scale and of the
    translation by the negated offset, leaving out those that are the
    identity; on one axis, and without rotation, a coordinate is
    scaled and then moved by the position less the scaled offset. *)
Definition transformCoord (pos sc off : num) (c : num) : num :=
  (sc * c + (pos + sc * Num.neg off))%num.

(** [_transformedRect]: the bounds of the transformed corners. *)
Definition transformedRect (g : Group) (r : Rect) : Rect :=
  let x0 := transformCoord (posX g) (scaleX g) (offsetX g) (x r) in
  let x1 := transformCoord (posX g) (scaleX g) (offsetX g) (x r + width r)%num in
  let y0 := transformCoord (posY g) (scaleY g) (offsetY g) (y r) in
  let y1 := transformCoord (posY g) (scaleY g) (offsetY g) (y r + height r)%num in
  {| x := Num.min x0 x1; y := Num.min y0 y1;
     width := (Num.max x0 x1 - Num.min x0 x1)%num;
     height := (Num.max y0 y1 - Num.min y0 y1)%num |}.

(** [group.getClientRect({skipShadow: true, skipStroke: true})] of a
    group that has no parent yet. *)
Definition getClientRect (g : Group) : Rect := transformedRect g (selfRect g).

(** [new Konva.Stage({container, width, height, scale})]. *)
Record Stage : Type := {
  stageWidth : num;
  stageHeight : num;
  stageScaleX : num;
  stageScaleY : num
}.

(** [group.getAbsolutePosition()] for a group of a layer of the stage:
    where the origin of the group lies on the canvas, in pixels.  Only
    the stage is scaled; the layers carry no transform. *)
Definition getAbsolutePosition (st : Stage) (g : Group) : num * num :=
  ((stageScaleX st * posX g)%num, (stageScaleY st * posY g)%num).

Record Transformer : Type := {
  rotateEnabled : bool;
  nodes : list nat
}.

(** A child of a layer.  A transformer refers to the nodes it is
    attached to by their position in the layer. *)
Inductive Node : Type :=
| GroupNode (g : Group)
| TransformerNode (t : Transformer).

Definition Layer : Type := list Node.

(** [node.hasName(n)]; a transformer is created without a name. *)
Definition hasName (n : Node) (s : string) : bool :=
  match n with
  | GroupNode g => String.eqb (name g) s
  | TransformerNode _ => false
  end.

(** [layer.destroyChildren()]. *)
Definition destroyChildren (l : Layer) : Layer := [].

(** [layer.getChildren(filter)], keeping the groups among the matches. *)
Fixpoint getChildren (f : Node -> bool) (l : Layer) : list Group :=
  match l with
  | [] => []
  | GroupNode g :: rest =>
      if f (GroupNode g) then g :: getChildren f rest else getChildren f rest
  | TransformerNode t :: rest => getChildren f rest
  end.

End Konva.

(** [array.forEach((obj, i) => ...)] collecting what each callback does. *)
Fixpoint forEach {A B : Type} (f : A -> nat -> list B) (i : nat) (l : list A) : list B :=
  match l with
  | [] => []
  | a :: rest => f a i ++ forEach f (S i) rest
  end.

(** The messages of the source. *)
Definition MSG_NO_OBJECT : string := "No object loaded. Please choose an SVG file first.".
Definition MSG_INVALID_SVG : string := "Error. Did you upload a valid SVG file?".
Definition MSG_HTTP (st : nat) : string := "Error (HTTP " ++ show_nat st ++ ")".

(** * static/js/scripts.js: the Konva revision that centres through [offset] *)

Module KonvaOffset.
Import Konva.

Definition MARGIN : num := lit 10.

(** The page's state: the shared [svg] object and the layer. *)
Record Page : Type := { svg_text : string; layer : Layer }.

Definition newLine (pl : polyline) : Line :=
  {| points := flat_map (fun pair => [px pair; py pair]) pl;
     stroke := "black";
     hitStrokeWidth := 40 |}.

(** The group with one line per polyline, before it is fitted. *)
Definition buildGroup (polylines : list polyline) : Group :=
  fold_left (fun group pl => add group (newLine pl)) polylines
            (new_Group true "polylines").

(** The fit of [drawPreview], from the first [getClientRect] to
    [group.position]. *)
Definition fit (group : Group) : Group :=
  let clientRect := getClientRect group in
  let group := offset group (width clientRect / lit 2 + x clientRect)%num
                            (height clientRect / lit 2 + y clientRect)%num in
  let targetWidth := (IBB_WIDTH - MARGIN)%num in
  let targetHeight := (IBB_HEIGHT - MARGIN)%num in
  let group :=
    if (width clientRect / height clientRect >? targetWidth / targetHeight)%num
    then scale group (targetWidth / width clientRect)%num
                     (targetWidth / width clientRect)%num
    else scale group (targetHeight / height clientRect)%num
                     (targetHeight / height clientRect)%num in
  position group (IBB_WIDTH / lit 2)%num (IBB_HEIGHT / lit 2)%num.

Definition drawPreview (layer : Layer) (polylines : list polyline) : Layer :=
  let group := fit (buildGroup polylines) in
  let tr := {| rotateEnabled := false; nodes := [List.length layer] |} in
  layer ++ [GroupNode group; TransformerNode tr].

(** [loadSvg] up to its first [await]: the request, if any. *)
Definition loadSvg_request (p : Page) : list effect :=
  if String.eqb (svg_text p) EmptyString then []
  else [Fetch "/preview/" "POST" (PreviewBody (svg_text p))].

(** [loadSvg] from the arrival of the response on. *)
Definition loadSvg_resume (r : response (list polyline)) (p : Page)
  : Page * list effect :=
  if ok r then
    match json r with
    | None => (p, [Throw "SyntaxError"])
    | Some (Payload polylines) =>
        ({| svg_text := svg_text p;
            layer := drawPreview (destroyChildren (layer p)) polylines |}, [])
    | Some _ =>
        ({| svg_text := svg_text p; layer := destroyChildren (layer p) |},
         [Throw "TypeError"])
    end
  else
    (p, Console "error" [VStr "Error: HTTP"; VNum (Fin (inject_Z (Z.of_nat (status r))))]
        :: (if Nat.eqb (status r) 400 then [Alert MSG_INVALID_SVG]
            else [Alert (MSG_HTTP (status r))])).

(** The callback of [children.forEach] up to its [await]. *)
Definition printEach (svg_text printMode : string) (obj : Group) (i : nat)
  : list effect :=
  let dx := (posX obj + offsetX obj)%num in
  let dy := (posY obj + offsetY obj)%num in
  [ Console "debug" [VStr ("Object " ++ show_nat i ++ ":")];
    Console "debug" [VStr "  Moved by"; VNum dx; VNum dy];
    Console "debug" [VStr "  Scaled by"; VFun "scaleX"; VFun "scaleY"];
    Fetch "/print/" "POST"
      (PrintRequest {| svg := svg_text; offset_x := dx; offset_y := dy;
                       scale_x := scaleX obj; scale_y := scaleY obj;
                       mode := printMode |}) ].

(** [printObject] up to the [await]s.  [printMode] is the value of the
    checked [mode] input. *)
Definition printObject (printMode : string) (p : Page) : Page * list effect :=
  let children := getChildren (fun node => hasName node "polylines") (layer p) in
  if Nat.eqb (List.length children) 0 then (p, [Alert MSG_NO_OBJECT])
  else (p, forEach (printEach (svg_text p) printMode) 0 children).

(** The callback of [children.forEach] from the arrival of the response on. *)
Definition printObject_resume (printMode : string) (r : response unit) (p : Page)
  : Page * list effect :=
  if Nat.eqb (status r) 204 then
    (p, if String.eqb printMode "once" then [Alert "Printing!"]
        else [Alert "Scheduled printing!"])
  else
    (p, Console "error" [VStr "Error: HTTP"; VNum (Fin (inject_Z (Z.of_nat (status r))))]
        :: (if Nat.eqb (status r) 400 then [Alert MSG_INVALID_SVG]
            else [Alert (MSG_HTTP (status r))])).

(** [fr.onload]: store the text, then call [loadSvg]. *)
Definition onFileRead (text : string) (p : Page) : Page * list effect :=
  let p := {| svg_text := text; layer := layer p |} in
  (p, loadSvg_request p).

(** What can happen to the page, one callback at a time. *)
Inductive event : Type :=
| FileRead (text : string)
| PreviewArrived (r : response (list polyline))
| PrintClicked (printMode : string)
| PrintArrived (printMode : string) (r : response unit).

Definition step (e : event) (p : Page) : Page * list effect :=
  match e with
  | FileRead text => onFileRead text p
  | PreviewArrived r => loadSvg_resume r p
  | PrintClicked printMode => printObject printMode p
  | PrintArrived printMode r => printObject_resume printMode r p
  end.

Fixpoint run (es : list event) (p : Page) : Page * list effect :=
  match es with
  | [] => (p, [])
  | e :: rest =>
      let '(p1, out1) := step e p in
      let '(p2, out2) := run rest p1 in
      (p2, out1 ++ out2)
  end.

(** The page after [ready]: an empty layer and [svg.text = '']. *)
Definition initial : Page := {| svg_text := EmptyString; layer := [] |}.

(** The stage that [ready] creates. *)
Definition stage : Konva.Stage :=
  {| Konva.stageWidth := (IBB_WIDTH * PREVIEW_SCALE_FACTOR)%num;
     Konva.stageHeight := (IBB_HEIGHT * PREVIEW_SCALE_FACTOR)%num;
     Konva.stageScaleX := PREVIEW_SCALE_FACTOR;
     Konva.stageScaleY := PREVIEW_SCALE_FACTOR |}.

End KonvaOffset.

(** * The Konva revision with [fitGroup] and the stage click handler *)

Module KonvaFit.

Definition MARGIN : num := lit 10.

(** The [bounds] argument of [fitGroup]. *)
Record Size : Type := { width : num; height : num }.

(** The page's state: the shared [svg] object, the layer of the
    preview, and the nodes the transformer of the second layer is
    attached to, each known by its identity. *)
Record Page : Type := {
  svg_text : string;
  layer : Konva.Layer;
  tr_nodes : list nat
}.

(** Re-scale group to fit and center it in bounds. *)
Definition fitGroup (group : Konva.Group) (bounds : Size) (margin : num)
  : Konva.Group :=
  let clientRect := Konva.getClientRect group in
  let targetWidth := (width bounds - margin)%num in
  let targetHeight := (height bounds - margin)%num in
  let group :=
    if (Konva.width clientRect / Konva.height clientRect
        >? targetWidth / targetHeight)%num
    then Konva.scale group (targetWidth / Konva.width clientRect)%num
                           (targetWidth / Konva.width clientRect)%num
    else Konva.scale group (targetHeight / Konva.height clientRect)%num
                           (targetHeight / Konva.height clientRect)%num in
  let clientRect := Konva.getClientRect group in
  Konva.move group
    ((IBB_WIDTH - Konva.width clientRect) / lit 2 - Konva.x clientRect)%num
    ((IBB_HEIGHT - Konva.height clientRect) / lit 2 - Konva.y clientRect)%num.

Definition newLine (pl : polyline) : Konva.Line :=
  {| Konva.points := flat_map (fun pair => [px pair; py pair]) pl;
     Konva.stroke := "black";
     Konva.hitStrokeWidth := 40 |}.

(** The group with one line per polyline, before it is fitted. *)
Definition buildGroup (polylines : list polyline) : Konva.Group :=
  fold_left (fun group pl => Konva.add group (newLine pl)) polylines
            (Konva.new_Group true "polylines").

Definition drawPreview (layer : Konva.Layer) (polylines : list polyline)
  : Konva.Layer :=
  let group := buildGroup polylines in
  let group := fitGroup group {| width := IBB_WIDTH; height := IBB_HEIGHT |} MARGIN in
  layer ++ [Konva.GroupNode group].

(** [loadSvg] up to its first [await]: the request, if any. *)
Definition loadSvg_request (p : Page) : list effect :=
  if String.eqb (svg_text p) EmptyString then []
  else [Fetch "/preview/" "POST" (PreviewBody (svg_text p))].

Definition with_layer (p : Page) (l : Konva.Layer) : Page :=
  {| svg_text := svg_text p; layer := l; tr_nodes := tr_nodes p |}.

(** [loadSvg] from the arrival of the response on. *)
Definition loadSvg_resume (r : response (list polyline)) (p : Page)
  : Page * list effect :=
  if ok r then
    match json r with
    | None => (p, [Throw "SyntaxError"])
    | Some (Payload polylines) =>
        (with_layer p (drawPreview (Konva.destroyChildren (layer p)) polylines), [])
    | Some _ =>
        (with_layer p (Konva.destroyChildren (layer p)), [Throw "TypeError"])
    end
  else
    (p, Console "error" [VStr "Error: HTTP"; VNum (Fin (inject_Z (Z.of_nat (status r))))]
        :: (if Nat.eqb (status r) 400 then [Alert MSG_INVALID_SVG]
            else [Alert (MSG_HTTP (status r))])).

(** The callback of [children.forEach] up to its [await]. *)
Definition printEach (svg_text printMode : string) (obj : Konva.Group) (i : nat)
  : list effect :=
  let dx := Konva.posX obj in
  let dy := Konva.posY obj in
  [ Console "debug" [VStr ("Object " ++ show_nat i ++ ":")];
    Console "debug" [VStr "  Moved by"; VNum dx; VNum dy];
    Console "debug" [VStr "  Scaled by"; VFun "scaleX"; VFun "scaleY"];
    Fetch "/print/" "POST"
      (PrintRequest {| svg := svg_text; offset_x := dx; offset_y := dy;
                       scale_x := Konva.scaleX obj; scale_y := Konva.scaleY obj;
                       mode := printMode |}) ].

(** [printObject] up to the [await]s.  [printMode] is the value of the
    checked [mode] input. *)
Definition printObject (printMode : string) (p : Page) : Page * list effect :=
  let children :=
    Konva.getChildren (fun node => Konva.hasName node "polylines") (layer p) in
  if Nat.eqb (List.length children) 0 then (p, [Alert MSG_NO_OBJECT])
  else (p, forEach (printEach (svg_text p) printMode) 0 children).

(** The callback of [children.forEach] from the arrival of the response on. *)
Definition printObject_resume (printMode : string) (r : response unit) (p : Page)
  : Page * list effect :=
  if Nat.eqb (status r) 204 then
    (p, if String.eqb printMode "once" then [Alert "Printing!"]
        else [Alert "Scheduled printing!"])
  else
    (p, Console "error" [VStr "Error: HTTP"; VNum (Fin (inject_Z (Z.of_nat (status r))))]
        :: (if Nat.eqb (status r) 400 then [Alert MSG_INVALID_SVG]
            else [Alert (MSG_HTTP (status r))])).

(** What a click or tap hits: the stage itself, or a shape, known by
    the identity of its parent. *)
Inductive target : Type :=
| OnStage
| OnShape (parent : nat).

(** [tr.nodes().includes(node)]. *)
Definition includes (nodes : list nat) (node : nat) : bool :=
  existsb (Nat.eqb node) nodes.

(** The handler of [stage.on('click tap')]: clicks select and deselect. *)
Definition onClick (e_target : target) (p : Page) : Page :=
  match e_target with
  | OnStage => {| svg_text := svg_text p; layer := layer p; tr_nodes := [] |}
  | OnShape parent =>
      if negb (includes (tr_nodes p) parent)
      then {| svg_text := svg_text p; layer := layer p; tr_nodes := [parent] |}
      else {| svg_text := svg_text p; layer := layer p; tr_nodes := [] |}
  end.

(** [fr.onload]: store the text, then call [loadSvg]. *)
Definition onFileRead (text : string) (p : Page) : Page * list effect :=
  let p := {| svg_text := text; layer := layer p; tr_nodes := tr_nodes p |} in
  (p, loadSvg_request p).

(** What can happen to the page, one callback at a time. *)
Inductive event : Type :=
| FileRead (text : string)
| PreviewArrived (r : response (list polyline))
| PrintClicked (printMode : string)
| PrintArrived (printMode : string) (r : response unit)
| Click (e_target : target).

Definition step (e : event) (p : Page) : Page * list effect :=
  match e with
  | FileRead text => onFileRead text p
  | PreviewArrived r => loadSvg_resume r p
  | PrintClicked printMode => printObject printMode p
  | PrintArrived printMode r => printObject_resume printMode r p
  | Click e_target => (onClick e_target p, [])
  end.

Fixpoint run (es : list event) (p : Page) : Page * list effect :=
  match es with
  | [] => (p, [])
  | e :: rest =>
      let '(p1, out1) := step e p in
      let '(p2, out2) := run rest p1 in
      (p2, out1 ++ out2)
  end.

(** The page after [ready]. *)
Definition initial : Page := {| svg_text := EmptyString; layer := []; tr_nodes := [] |}.

(** The stage that [ready] creates. *)
Definition stage : Konva.Stage :=
  {| Konva.stageWidth := (IBB_WIDTH * PREVIEW_SCALE_FACTOR)%num;
     Konva.stageHeight := (IBB_HEIGHT * PREVIEW_SCALE_FACTOR)%num;
     Konva.stageScaleX := PREVIEW_SCALE_FACTOR;
     Konva.stageScaleY := PREVIEW_SCALE_FACTOR |}.

End KonvaFit.

(** * The fabric.js revision

    The part of fabric.js the page relies on: polylines collected into
    one group object, [scaleToWidth], [scaleToHeight] and
    [setPositionByOrigin] on an un-rotated object whose own origin is
    its top left corner. *)

Module Fabric.

Record Point : Type := { x : num; y : num }.

Record Polyline : Type := {
  points : list Point;
  stroke : string;
  fill : option string;
  lockUniScaling : bool;
  lockRotation : bool;
  strokeWidth : num;
  pl_left : num;
  pl_top : num;
  pl_width : num;
  pl_height : num
}.

(** The group object.  [_originalLeft] and [_originalTop] are what
    [saveCoords] recorded when the group was created. *)
Record Object : Type := {
  objects : list Polyline;
  left : num;
  top : num;
  width : num;
  height : num;
  scaleX : num;
  scaleY : num;
  _originalLeft : option num;
  _originalTop : option num
}.

Definition Canvas : Type := list Object.

(** The page's state: the shared [svg] object and the canvas. *)
Record Page : Type := { svg_text : string; canvas : Canvas }.

(** A property read in an arithmetic position: [undefined] gives [NaN]. *)
Definition toNumber (v : option num) : num :=
  match v with
  | Some n => n
  | None => NaN
  end.

(** Minimum and maximum of a non-empty list of numbers. *)
Definition minimum (first : num) (rest : list num) : num := fold_left Num.min rest first.
Definition maximum (first : num) (rest : list num) : num := fold_left Num.max rest first.

(** [new fabric.Polyline(points, {stroke, fill, lockUniScaling,
    lockRotation})]: the stroke width keeps fabric's default of 1 and
    the dimensions are the bounds of the points. *)
Definition new_Polyline (pts : list Point) : Polyline :=
  match pts with
  | [] =>
      {| points := pts; stroke := "black"; fill := None;
         lockUniScaling := true; lockRotation := true; strokeWidth := lit 1;
         pl_left := lit 0; pl_top := lit 0; pl_width := lit 0; pl_height := lit 0 |}
  | p :: rest =>
      let minX := minimum (x p) (map x rest) in
      let minY := minimum (y p) (map y rest) in
      let maxX := maximum (x p) (map x rest) in
      let maxY := maximum (y p) (map y rest) in
      {| points := pts; stroke := "black"; fill := None;
         lockUniScaling := true; lockRotation := true; strokeWidth := lit 1;
         pl_left := minX; pl_top := minY;
         pl_width := (maxX - minX)%num; pl_height := (maxY - minY)%num |}
  end.

(** [new fabric.Group(objects)]: the bounds of the corners of the
    objects, each as wide as its points and its stroke; the
    coordinates are saved as the original ones. *)
Definition new_Group (objs : list Polyline) : Object :=
  match objs with
  | [] =>
      {| objects := objs; left := lit 0; top := lit 0; width := lit 0; height := lit 0;
         scaleX := lit 1; scaleY := lit 1;
         _originalLeft := Some (lit 0); _originalTop := Some (lit 0) |}
  | o :: rest =>
      let right o := (pl_left o + (pl_width o + strokeWidth o))%num in
      let bottom o := (pl_top o + (pl_height o + strokeWidth o))%num in
      let minX := minimum (Num.min (pl_left o) (right o))
                          (flat_map (fun o => [pl_left o; right o]) rest) in
      let minY := minimum (Num.min (pl_top o) (bottom o))
                          (flat_map (fun o => [pl_top o; bottom o]) rest) in
      let maxX := maximum (Num.max (pl_left o) (right o))
                          (flat_map (fun o => [pl_left o; right o]) rest) in
      let maxY := maximum (Num.max (pl_top o) (bottom o))
                          (flat_map (fun o => [pl_top o; bottom o]) rest) in
      {| objects := objs; left := minX; top := minY;
         width := (maxX - minX)%num; height := (maxY - minY)%num;
         scaleX := lit 1; scaleY := lit 1;
         _originalLeft := Some minX; _originalTop := Some minY |}
  end.

(** [obj.scale(value)]: both factors at once.  The flip that fabric.js
    substitutes for a negative factor and its lower limit on factors
    are left out. *)
Definition scale (o : Object) (value : num) : Object :=
  {| objects := objects o; left := left o; top := top o;
     width := width o; height := height o; scaleX := value; scaleY := value;
     _originalLeft := _originalLeft o; _originalTop := _originalTop o |}.

(** [obj.scaleToWidth(value)]; the factor of the bounding rectangle is
    that of an un-rotated object. *)
Definition scaleToWidth (o : Object) (value : num) : Object :=
  let boundingRectFactor := ((width o * scaleX o) / (width o * scaleX o))%num in
  scale o (value / width o / boundingRectFactor)%num.

Definition scaleToHeight (o : Object) (value : num) : Object :=
  let boundingRectFactor := ((height o * scaleY o) / (height o * scaleY o))%num in
  scale o (value / height o / boundingRectFactor)%num.

(** [obj.setPositionByOrigin(pos, 'center', 'top')]: the point is taken
    to the centre of the object, then to its top left corner. *)
Definition setPositionByOrigin_center_top (o : Object) (pos : Point) : Object :=
  let dimX := (width o * scaleX o)%num in
  let dimY := (height o * scaleY o)%num in
  let centerX := x pos in
  let centerY := (y pos + dimY / lit 2)%num in
  {| objects := objects o;
     left := (centerX - dimX / lit 2)%num; top := (centerY - dimY / lit 2)%num;
     width := width o; height := height o; scaleX := scaleX o; scaleY := scaleY o;
     _originalLeft := _originalLeft o; _originalTop := _originalTop o |}.

(** Scale and transform polyline so it can be used by fabric.js. *)
Definition preparePolyline (pl : polyline) (scaleFactor : num) : list Point :=
  map (fun pair => {| x := (Fin (px pair) * scaleFactor)%num;
                      y := (Fin (py pair) * scaleFactor)%num |}) pl.

(** The fit of [drawPreview], from [offset] to [setPositionByOrigin]. *)
Definition fit (groupObj : Object) : Object :=
  let offset := (lit 5 * PREVIEW_SCALE_FACTOR)%num in
  let height_ := (IBB_HEIGHT * PREVIEW_SCALE_FACTOR)%num in
  let width_ := (IBB_WIDTH * PREVIEW_SCALE_FACTOR)%num in
  let groupObj :=
    if (height groupObj / width groupObj >? height_ / width_)%num
    then scaleToHeight groupObj (height_ - offset * lit 2)%num
    else scaleToWidth groupObj (width_ - offset * lit 2)%num in
  let centerpoint := {| x := (width_ / lit 2)%num; y := offset |} in
  setPositionByOrigin_center_top groupObj centerpoint.

(** The group object of all polylines, before it is fitted. *)
Definition buildGroup (polylines : list polyline) : Object :=
  let group :=
    map (fun pl => new_Polyline (preparePolyline pl PREVIEW_SCALE_FACTOR)) polylines in
  new_Group group.

Definition drawPreview (canvas : Canvas) (polylines : list polyline) : Canvas :=
  let groupObj := buildGroup polylines in
  canvas ++ [fit groupObj].

(** [canvas.clear()]. *)
Definition clear (c : Canvas) : Canvas := [].

(** [loadSvg] up to its first [await]: the request, if any. *)
Definition loadSvg_request (p : Page) : list effect :=
  if String.eqb (svg_text p) EmptyString then []
  else [Fetch "/preview/" "POST" (PreviewBody (svg_text p))].

(** [loadSvg] from the arrival of the response on. *)
Definition loadSvg_resume (r : response (list polyline)) (p : Page)
  : Page * list effect :=
  if ok r then
    match json r with
    | None => (p, [Throw "SyntaxError"])
    | Some (Payload polylines) =>
        ({| svg_text := svg_text p;
            canvas := drawPreview (clear (canvas p)) polylines |}, [])
    | Some _ =>
        ({| svg_text := svg_text p; canvas := clear (canvas p) |},
         [Throw "TypeError"])
    end
  else
    (p, Console "error" [VStr "Error: HTTP"; VNum (Fin (inject_Z (Z.of_nat (status r))))]
        :: (if Nat.eqb (status r) 400 then [Alert MSG_INVALID_SVG]
            else [Alert (MSG_HTTP (status r))])).

(** The callback of [canvas.forEachObject] up to its [await]. *)
Definition printEach (svg_text printMode : string) (obj : Object) (i : nat)
  : list effect :=
  let dx := ((left obj - toNumber (_originalLeft obj)) / PREVIEW_SCALE_FACTOR)%num in
  let dy := ((top obj - toNumber (_originalTop obj)) / PREVIEW_SCALE_FACTOR)%num in
  [ Console "debug" [VStr ("Object " ++ show_nat i ++ ":")];
    Console "debug" [VStr "  Moved by"; VNum dx; VNum dy];
    Console "debug" [VStr "  Scaled by"; VNum (scaleX obj); VNum (scaleY obj)];
    Fetch "/print/" "POST"
      (PrintRequest {| svg := svg_text; offset_x := dx; offset_y := dy;
                       scale_x := scaleX obj; scale_y := scaleY obj;
                       mode := printMode |}) ].

(** The click handler that [printObject] returns, up to the [await]s. *)
Definition printObject (printMode : string) (p : Page) : Page * list effect :=
  if Nat.eqb (List.length (canvas p)) 0 then (p, [Alert MSG_NO_OBJECT])
  else (p, forEach (printEach (svg_text p) printMode) 0 (canvas p)).

(** The callback of [canvas.forEachObject] from the arrival of the
    response on. *)
Definition printObject_resume (printMode : string) (r : response unit) (p : Page)
  : Page * list effect :=
  if Nat.eqb (status r) 204 then
    (p, if String.eqb printMode "once" then [Alert "Printing!"]
        else [Alert "Scheduled printing!"])
  else
    (p, Console "error" [VStr "Error: HTTP"; VNum (Fin (inject_Z (Z.of_nat (status r))))]
        :: (if Nat.eqb (status r) 400 then [Alert MSG_INVALID_SVG]
            else [Alert (MSG_HTTP (status r))])).

(** [fr.onload]: store the text, then call [loadSvg]. *)
Definition onFileRead (text : string) (p : Page) : Page * list effect :=
  let p := {| svg_text := text; canvas := canvas p |} in
  (p, loadSvg_request p).

(** The page after [ready]: an empty canvas and [svg.text = '']. *)
Definition initial : Page := {| svg_text := EmptyString; canvas := [] |}.

(** What can happen to the page, one callback at a time. *)
Inductive event : Type :=
| FileRead (text : string)
| PreviewArrived (r : response (list polyline))
| PrintClicked (printMode : string)
| PrintArrived (printMode : string) (r : response unit).

Definition step (e : event) (p : Page) : Page * list effect :=
  match e with
  | FileRead text => onFileRead text p
  | PreviewArrived r => loadSvg_resume r p
  | PrintClicked printMode => printObject printMode p
  | PrintArrived printMode r => printObject_resume printMode r p
  end.

Fixpoint run (es : list event) (p : Page) : Page * list effect :=
  match es with
  | [] => (p, [])
  | e :: rest =>
      let '(p1, out1) := step e p in
      let '(p2, out2) := run rest p1 in
      (p2, out1 ++ out2)
  end.

End Fabric.

(** * The file-listing page *)

Module Listing.

(** The [#svgfiles] element: its [.loading] and [.nofiles] texts, its
    [ul.files] list and its [.error] text. *)
Record Element : Type := {
  loading_hidden : bool;
  nofiles_hidden : bool;
  files_entries : list string;
  files_hidden : bool;
  error_innerText : string;
  error_hidden : bool
}.

Definition newline : string := String (ascii_of_nat 10) EmptyString.

(** The [try] block of the error branch: what is appended to the error
    text.  A body that is not JSON, or is [null], throws and is caught;
    a missing [details] field reads as [undefined]. *)
Definition detailsSuffix (body : option (jsonBody (list string))) : string :=
  match body with
  | None => EmptyString
  | Some JsonNull => EmptyString
  | Some (JsonObject (Some details)) => newline ++ "Details: " ++ details
  | Some (JsonObject None) => newline ++ "Details: " ++ "undefined"
  | Some (Payload _) => newline ++ "Details: " ++ "undefined"
  end.

(** [loadSvgList] from the arrival of the response on. *)
Definition loadSvgList_resume (r : response (list string)) (element : Element)
  : Element * list effect :=
  if ok r then
    match json r with
    | None => (element, [Throw "SyntaxError"])
    | Some body =>
        let log := Console "log" [VStr "Loaded list of SVG files"] in
        let element :=
          {| loading_hidden := true; nofiles_hidden := nofiles_hidden element;
             files_entries := files_entries element;
             files_hidden := files_hidden element;
             error_innerText := error_innerText element;
             error_hidden := error_hidden element |} in
        match body with
        | Payload files =>
            if Nat.eqb (List.length files) 0 then
              ({| loading_hidden := loading_hidden element; nofiles_hidden := false;
                  files_entries := files_entries element;
                  files_hidden := files_hidden element;
                  error_innerText := error_innerText element;
                  error_hidden := error_hidden element |}, [log])
            else
              ({| loading_hidden := loading_hidden element;
                  nofiles_hidden := nofiles_hidden element;
                  files_entries := files_entries element ++ files;
                  files_hidden := false;
                  error_innerText := error_innerText element;
                  error_hidden := error_hidden element |}, [log])
        | _ => (element, [log; Throw "TypeError"])
        end
    end
  else
    let log :=
      Console "error" [VStr "Error: HTTP"; VNum (Fin (inject_Z (Z.of_nat (status r))))] in
    ({| loading_hidden := true; nofiles_hidden := nofiles_hidden element;
        files_entries := files_entries element;
        files_hidden := files_hidden element;
        error_innerText :=
          ("Error fetching SVG files (HTTP " ++ show_nat (status r) ++ ")")
          ++ detailsSuffix (json r);
        error_hidden := false |}, [log]).

End Listing.

(** * common.js *)

Module Common.

(** [document.readyState]. *)
Inductive ReadyState : Type :=
| Loading
| Interactive
| Complete.

(** The document, as far as [ready] is concerned: its state and the
    listeners of [DOMContentLoaded], in the order of registration. *)
Record Document (F : Type) : Type := {
  readyState : ReadyState;
  listeners : list F
}.
Arguments readyState {F} d.
Arguments listeners {F} d.

Definition isLoading (st : ReadyState) : bool :=
  match st with
  | Loading => true
  | _ => false
  end.

(** Run the specified function as soon as the DOM is ready.  The
    result is the document and the functions called meanwhile. *)
Definition ready {F} (fn : F) (document : Document F) : Document F * list F :=
  if negb (isLoading (readyState document)) then (document, [fn])
  else ({| readyState := readyState document;
           listeners := listeners document ++ [fn] |}, []).

(** The browser ends the parsing of a document that was loading: the
    state becomes [interactive] and the listeners are called in
    turn. *)
Definition fireDOMContentLoaded {F} (document : Document F) : Document F * list F :=
  ({| readyState := Interactive; listeners := listeners document |},
   listeners document).

End Common.

(** * The configuration of the file-listing page *)

Module Config.

(** A child of the [dl.items] list: a term or a description, with the
    text it holds. *)
Inductive Item : Type :=
| Dt (text : string)
| Dd (code : string).

(** The [#config] element: its [.loading] text, its [dl.items] list
    and its [.error] text. *)
Record Element : Type := {
  loading_hidden : bool;
  items : list Item;
  items_hidden : bool;
  error_innerText : string;
  error_hidden : bool
}.

(** The parsed configuration: its properties, each value as a text
    node shows it. *)
Definition Object : Type := list (string * string).

(** [config[key]] in a text node: a missing property shows as
    [undefined]. *)
Fixpoint get (config : Object) (key : string) : string :=
  match config with
  | [] => "undefined"
  | (k, v) :: rest => if String.eqb k key then v else get rest key
  end.

(** The entries, each with its key and its label. *)
Definition configEntries : list (string * string) :=
  [ ("device", "Device");
    ("svg_dir", "SVG Directory");
    ("interval_seconds", "Start drawing every n seconds") ].

(** The [for] loop over the entries: a term with the label and a
    description with the value, appended to the list. *)
Definition showEntries (entries : list (string * string)) (config : Object)
                       (shown : list Item) : list Item :=
  fold_left (fun acc item => acc ++ [Dt (snd item); Dd (get config (fst item))])
            entries shown.

(** [loadConfig] from the arrival of the response on.  A body that is
    a JSON object is the configuration; an object that is not the
    payload is taken to have no property but [details].  On [null]
    the first term is appended before the read of the property
    throws. *)
Definition loadConfig_resume (r : response Object) (element : Element)
  : Element * list effect :=
  if ok r then
    match json r with
    | None => (element, [Throw "SyntaxError"])
    | Some body =>
        let log := Console "log" [VStr "Loaded config"] in
        let shown (config : Object) :=
          {| loading_hidden := true;
             items := showEntries configEntries config (items element);
             items_hidden := false;
             error_innerText := error_innerText element;
             error_hidden := error_hidden element |} in
        match body with
        | Payload config => (shown config, [log])
        | JsonObject (Some details) => (shown [("details", details)], [log])
        | JsonObject None => (shown [], [log])
        | JsonNull =>
            ({| loading_hidden := true;
                items := items element ++ [Dt "Device"];
                items_hidden := items_hidden element;
                error_innerText := error_innerText element;
                error_hidden := error_hidden element |},
             [log; Throw "TypeError"])
        end
    end
  else
    let log :=
      Console "error" [VStr "Error: HTTP"; VNum (Fin (inject_Z (Z.of_nat (status r))))] in
    ({| loading_hidden := true;
        items := items element;
        items_hidden := items_hidden element;
        error_innerText :=
          ("Error fetching config (HTTP " ++ show_nat (status r) ++ ")")%string;
        error_hidden := false |}, [log]).

End Config.

(** * Specification predicates *)

(** The four components of a rectangle are rationals equal to the
    given ones. *)
Definition rect_is (r : Konva.Rect) (bx by_ w h : Q) : Prop :=
  Num.has_value (Konva.x r) bx /\ Num.has_value (Konva.y r) by_ /\
  Num.has_value (Konva.width r) w /\ Num.has_value (Konva.height r) h.

(** [s] is the uniform fit of a [w] by [h] content into a [tw] by [th]
    target: the width decides when the content is relatively wider
    than the target and the height otherwise; the scaled content fits,
    no larger uniform scale fits, and the axis that did not decide is
    filled only when the two aspect ratios coincide. *)
Record FitSpec (w h tw th s : Q) : Prop := {
  fit_width_binding :
    tw / th < w / h -> s == tw / w /\ s * w == tw /\ s * h < th;
  fit_height_binding :
    w / h <= tw / th ->
    s == th / h /\ s * h == th /\ s * w <= tw /\
    (s * w == tw <-> w / h == tw / th);
  fit_fits : s * w <= tw /\ s * h <= th;
  fit_largest : forall s', s' * w <= tw -> s' * h <= th -> s' <= s
}.

(** The fit as first stated: the scaled content fits, with equality on
    exactly one axis, whichever axis is said to decide. *)
Definition FitExactlyOneAxis (w h tw th s : Q) : Prop :=
  (s * w <= tw /\ s * h <= th) /\
  ((s * w == tw /\ ~ s * h == th) \/ (s * h == th /\ ~ s * w == tw)).

(** The centre of a rectangle is the point [(cx, cy)]. *)
Definition centred_at (r : Konva.Rect) (cx cy : Q) : Prop :=
  Num.has_value (Konva.x r + Konva.width r / lit 2)%num cx /\
  Num.has_value (Konva.y r + Konva.height r / lit 2)%num cy.

(** The requests among the effects of a handler, and the bodies of the
    submissions among them. *)
Definition requests (out : list effect) : list effect := filter is_fetch out.

Fixpoint submitted (out : list effect) : list PrintBody :=
  match out with
  | [] => []
  | Fetch _ _ (PrintRequest b) :: rest => b :: submitted rest
  | _ :: rest => submitted rest
  end.

Fixpoint alerts (out : list effect) : list string :=
  match out with
  | [] => []
  | Alert msg :: rest => msg :: alerts rest
  | _ :: rest => alerts rest
  end.

(** [sub] occurs in [s]. *)
Fixpoint mentions (sub s : string) : bool :=
  match s with
  | EmptyString => String.prefix sub EmptyString
  | String _ rest => String.prefix sub s || mentions sub rest
  end.

(** The groups named [polylines] of a layer: the live preview. *)
Definition liveGroups (l : Konva.Layer) : list Konva.Group :=
  Konva.getChildren (fun node => Konva.hasName node "polylines") l.

(** A response of the given status carrying a payload. *)
Definition respond {A} (st : nat) (a : A) : response A :=
  {| status := st; json := Some (Payload a) |}.

(** The running bounds of [unionRects], once there are any, have their
    minima below their maxima. *)
Definition ordered (acc : option (Q * Q * Q * Q)) : Prop :=
  match acc with
  | None => True
  | Some (minX, minY, maxX, maxY) => minX <= maxX /\ minY <= maxY
  end.

(** The scale that the two branches of the fit select. *)
Definition chosenScale (cw ch tnw tnh : num) : num :=
  if (cw / ch >? tnw / tnh)%num then (tnw / cw)%num else (tnh / ch)%num.

(** A freshly built group carries the identity transform. *)
Definition untransformed (g : Konva.Group) : Prop :=
  Konva.posX g = lit 0 /\ Konva.posY g = lit 0 /\
  Konva.scaleX g = lit 1 /\ Konva.scaleY g = lit 1 /\
  Konva.offsetX g = lit 0 /\ Konva.offsetY g = lit 0.

(** The point [{x: a, y: b}]. *)
Definition pt (a b : Q) : point := {| px := a; py := b |}.

(** The fit as first stated, on the code: whenever the content has a
    positive width and height, the scale applied to the fitted group
    fills one axis of the target and not the other. *)
Definition FitClaim (content : Konva.Rect) (fitted : Konva.Group) (tw th : Q) : Prop :=
  forall bx by_ w h s,
    rect_is content bx by_ w h -> 0 < w -> 0 < h ->
    Num.has_value (Konva.scaleX fitted) s ->
    FitExactlyOneAxis w h tw th s.

(** The stale-response discard as first stated: whatever the order in
    which the two responses arrive, the polylines of the file loaded
    last are the ones displayed. *)
Definition StaleDiscard (X Y : string) (forX forY : list polyline) : Prop :=
  forall arrivals,
    arrivals = [KonvaOffset.PreviewArrived (respond 200 forX);
                KonvaOffset.PreviewArrived (respond 200 forY)]
    \/ arrivals = [KonvaOffset.PreviewArrived (respond 200 forY);
                   KonvaOffset.PreviewArrived (respond 200 forX)] ->
    KonvaOffset.layer
      (fst (KonvaOffset.run
              (KonvaOffset.FileRead X :: KonvaOffset.FileRead Y :: arrivals)
              KonvaOffset.initial))
    = KonvaOffset.drawPreview [] forY.

(** The notification of a failed request. *)
Definition errorAlert (st : nat) : string :=
  if Nat.eqb st 400 then MSG_INVALID_SVG else MSG_HTTP st.

Definition errorLog (st : nat) : effect :=
  Console "error" [VStr "Error: HTTP"; VNum (Fin (inject_Z (Z.of_nat st)))].

(** The guard for empty sets as first stated: an empty polyline set
    leaves no group behind. *)
Definition EmptySetGuard (p : KonvaOffset.Page) : Prop :=
  liveGroups
    (KonvaOffset.layer (fst (KonvaOffset.loadSvg_resume (respond 200 []) p)))
  = [].

(** The first line of the error text of the file-listing page. *)
Definition listingError (st : nat) : string :=
  ("Error fetching SVG files (HTTP " ++ show_nat st ++ ")")%string.

(** The extraction of details as first stated: when the body of a
    failed decomposition response carries details, some notification
    shows them. *)
Definition DetailsSurfaced (st : nat) (details : string) (p : KonvaOffset.Page) : Prop :=
  existsb (mentions details)
    (alerts (snd (KonvaOffset.loadSvg_resume
                    {| status := st; json := Some (JsonObject (Some details)) |} p)))
  = true.

(** The read-out as first stated, for a Konva group: the submitted
    offsets are the offsets read off the group divided by the
    magnification factor, and the scale factors are those of the
    group. *)
Definition DividesOffsets (obj : Konva.Group) (b : PrintBody) : Prop :=
  offset_x b =n= (Konva.posX obj / PREVIEW_SCALE_FACTOR)%num /\
  offset_y b =n= (Konva.posY obj / PREVIEW_SCALE_FACTOR)%num /\
  scale_x b =n= Konva.scaleX obj /\
  scale_y b =n= Konva.scaleY obj.

(** The equivalence as first stated: loaded with the same polylines
    and submitted without any manipulation, the two backends post the
    same offsets and scale factors. *)
Definition SamePlacement (a b : PrintBody) : Prop :=
  offset_x a =n= offset_x b /\ offset_y a =n= offset_y b /\
  scale_x a =n= scale_x b /\ scale_y a =n= scale_y b.

Definition SameSubmission (text : string) (polylines : list polyline) : Prop :=
  let pK := fst (KonvaFit.loadSvg_resume (respond 200 polylines)
                   (fst (KonvaFit.onFileRead text KonvaFit.initial))) in
  let pF := fst (Fabric.loadSvg_resume (respond 200 polylines)
                   (fst (Fabric.onFileRead text Fabric.initial))) in
  Forall2 SamePlacement
          (submitted (snd (KonvaFit.printObject "once" pK)))
          (submitted (snd (Fabric.printObject "once" pF))).

(** The placement that a submission carries. *)
Definition placement (b : PrintBody) : num * num * num * num :=
  (offset_x b, offset_y b, scale_x b, scale_y b).

(** The clicks among the events of the page. *)
Fixpoint clicks (es : list KonvaFit.event) : list KonvaFit.target :=
  match es with
  | [] => []
  | KonvaFit.Click t :: rest => t :: clicks rest
  | _ :: rest => clicks rest
  end.

(** The selection after a series of clicks. *)
Definition select (nodes : list nat) (t : KonvaFit.target) : list nat :=
  match t with
  | KonvaFit.OnStage => []
  | KonvaFit.OnShape parent =>
      if KonvaFit.includes nodes parent then [] else [parent]
  end.

(** The layer holds nothing, or one group followed by the transformer
    attached to it, rotation disabled. *)
Definition previewShape (l : Konva.Layer) : Prop :=
  l = [] \/
  exists g, l = [Konva.GroupNode g;
                 Konva.TransformerNode
                   {| Konva.rotateEnabled := false; Konva.nodes := [0%nat] |}]
            /\ Konva.name g = "polylines".

(** The layer holds nothing, or one group named [polylines]. *)
Definition singleGroup (l : Konva.Layer) : Prop :=
  l = [] \/ exists g, l = [Konva.GroupNode g] /\ Konva.name g = "polylines".

(** The bodies that the three loops post, one per object. *)
Definition bodyOffset (text printMode : string) (obj : Konva.Group) : PrintBody :=
  {| svg := text;
     offset_x := (Konva.posX obj + Konva.offsetX obj)%num;
     offset_y := (Konva.posY obj + Konva.offsetY obj)%num;
     scale_x := Konva.scaleX obj; scale_y := Konva.scaleY obj;
     mode := printMode |}.

Definition bodyFit (text printMode : string) (obj : Konva.Group) : PrintBody :=
  {| svg := text;
     offset_x := Konva.posX obj; offset_y := Konva.posY obj;
     scale_x := Konva.scaleX obj; scale_y := Konva.scaleY obj;
     mode := printMode |}.

Definition bodyFabric (text printMode : string) (obj : Fabric.Object) : PrintBody :=
  {| svg := text;
     offset_x := ((Fabric.left obj - Fabric.toNumber (Fabric._originalLeft obj))
                  / PREVIEW_SCALE_FACTOR)%num;
     offset_y := ((Fabric.top obj - Fabric.toNumber (Fabric._originalTop obj))
                  / PREVIEW_SCALE_FACTOR)%num;
     scale_x := Fabric.scaleX obj; scale_y := Fabric.scaleY obj;
     mode := printMode |}.

(** * Numbers: the finite fragment *)

Section NumFacts.

Lemma Qeq_bool_false (q : Q) : ~ q == 0 -> Qeq_bool q 0 = false.
Proof.
  intros Hq. destruct (Qeq_bool q 0) eqn:E; [|reflexivity].
  apply Qeq_bool_iff in E. contradiction.
Qed.

Lemma div_fin (p q : Q) : ~ q == 0 -> Num.div (Fin p) (Fin q) = Fin (p / q).
Proof. intros Hq. simpl. now rewrite Qeq_bool_false. Qed.

Lemma gt_fin_true (p q : Q) : q < p -> Num.gt (Fin p) (Fin q) = true.
Proof.
  intros H. simpl. destruct (Qle_bool p q) eqn:E; [|reflexivity].
  apply Qle_bool_iff in E. lra.
Qed.

Lemma gt_fin_false (p q : Q) : p <= q -> Num.gt (Fin p) (Fin q) = false.
Proof.
  intros H. simpl. apply Qle_bool_iff in H. now rewrite H.
Qed.

Lemma has_value_fin (a : num) (q : Q) :
  Num.has_value a q -> exists p, a = Fin p /\ p == q.
Proof. destruct a; simpl; try contradiction. intros H. now exists q0. Qed.

End NumFacts.

(** * Aspect ratios and the uniform fit, over the rationals *)

Section FitArithmetic.

Lemma ratio_lt (a b c d : Q) :
  0 < b -> 0 < d -> (a / b < c / d <-> a * d < c * b).
Proof.
  intros Hb Hd. split; intros H.
  - assert (E1 : a == (a / b) * b) by (field; lra).
    assert (E2 : c == (c / d) * d) by (field; lra).
    rewrite E1, E2.
    setoid_replace (a / b * b * d) with ((a / b) * (b * d)) by ring.
    setoid_replace (c / d * d * b) with ((c / d) * (b * d)) by ring.
    apply Qmult_lt_compat_r; [nra | exact H].
  - apply Qlt_shift_div_l; [exact Hd|].
    setoid_replace (a / b * d) with ((a * d) / b) by (field; lra).
    apply Qlt_shift_div_r; [exact Hb| exact H].
Qed.

Lemma ratio_le (a b c d : Q) :
  0 < b -> 0 < d -> (a / b <= c / d <-> a * d <= c * b).
Proof.
  intros Hb Hd. split; intros H; apply Qnot_lt_le; intros C.
  - apply (proj2 (ratio_lt c d a b Hd Hb)) in C. lra.
  - apply (proj1 (ratio_lt c d a b Hd Hb)) in C. lra.
Qed.

Lemma ratio_eq (a b c d : Q) :
  0 < b -> 0 < d -> (a / b == c / d <-> a * d == c * b).
Proof.
  intros Hb Hd. split; intros H.
  - apply Qle_antisym.
    + apply (proj1 (ratio_le a b c d Hb Hd)). rewrite H. lra.
    + apply (proj1 (ratio_le c d a b Hd Hb)). rewrite H. lra.
  - apply Qle_antisym.
    + apply (proj2 (ratio_le a b c d Hb Hd)). rewrite H. lra.
    + apply (proj2 (ratio_le c d a b Hd Hb)). rewrite H. lra.
Qed.

Variables w h tw th : Q.
Hypothesis w_pos : 0 < w.
Hypothesis h_pos : 0 < h.
Hypothesis tw_pos : 0 < tw.
Hypothesis th_pos : 0 < th.

(** Scaling by [tw / w] fills the width; the height it gives is
    [tw * h / w]. *)
Lemma width_scale_dims : tw / w * w == tw /\ tw / w * h == tw * h / w.
Proof. split; field; lra. Qed.

Lemma height_scale_dims : th / h * h == th /\ th / h * w == th * w / h.
Proof. split; field; lra. Qed.

Lemma scaled_le (s bound size : Q) :
  0 < size -> (s * size <= bound <-> s <= bound / size).
Proof.
  intros Hs. split; intros H.
  - apply Qle_shift_div_l; assumption.
  - assert (E : bound == bound / size * size) by (field; lra).
    rewrite E. apply Qmult_le_compat_r; lra.
Qed.

Lemma fit_width_branch : tw / th < w / h -> FitSpec w h tw th (tw / w).
Proof.
  intros Hr.
  assert (Hx : tw * h < w * th) by exact (proj1 (ratio_lt tw th w h th_pos h_pos) Hr).
  destruct width_scale_dims as [Ew Eh].
  assert (Hh : tw / w * h < th).
  { rewrite Eh. apply Qlt_shift_div_r; [assumption | lra]. }
  constructor.
  - intros _. split; [apply Qeq_refl | split; [exact Ew | exact Hh]].
  - intros Hle. exfalso. lra.
  - split; [rewrite Ew; lra | lra].
  - intros s' Hw' _. apply scaled_le; assumption.
Qed.

Lemma fit_height_branch : w / h <= tw / th -> FitSpec w h tw th (th / h).
Proof.
  intros Hr.
  assert (Hx : w * th <= tw * h) by exact (proj1 (ratio_le w h tw th h_pos th_pos) Hr).
  destruct height_scale_dims as [Eh Ew].
  assert (Hw : th / h * w <= tw).
  { rewrite Ew. apply Qle_shift_div_r; [assumption | lra]. }
  constructor.
  - intros Hlt. exfalso. lra.
  - intros _. split; [apply Qeq_refl|]. split; [exact Eh|]. split; [exact Hw|].
    split.
    + intros E. apply (proj2 (ratio_eq w h tw th h_pos th_pos)).
      rewrite Ew in E.
      assert (E' : th * w == tw * h).
      { rewrite <- E. field. lra. }
      lra.
    + intros E. apply (proj1 (ratio_eq w h tw th h_pos th_pos)) in E.
      rewrite Ew. apply Qle_antisym.
      * apply Qle_shift_div_r; [assumption | lra].
      * apply Qle_shift_div_l; [assumption | lra].
  - split; [exact Hw | rewrite Eh; lra].
  - intros s' _ Hh'. apply scaled_le; assumption.
Qed.

End FitArithmetic.

(** * The rectangle of a Konva group *)

Section KonvaGeometry.

Lemma pairs_ind (P : list Q -> Prop) :
  P [] -> (forall a, P [a]) -> (forall a b l, P l -> P (a :: b :: l)) ->
  forall l, P l.
Proof.
  intros H0 H1 H2 l.
  assert (H : P l /\ forall a, P (a :: l)).
  { induction l as [|b l [IH1 IH2]]; split; auto. }
  exact (proj1 H).
Qed.

(** The running bounds stay ordered. *)
Lemma extent_ordered (pts : list Q) :
  forall minX minY maxX maxY,
    minX <= maxX -> minY <= maxY ->
    let '(a, b, c, d) := Konva.extent pts minX minY maxX maxY in
    a <= c /\ b <= d.
Proof.
  induction pts as [| a | a b l IH] using pairs_ind; intros minX minY maxX maxY HX HY.
  - simpl. split; assumption.
  - simpl. split; assumption.
  - simpl. apply IH.
    + apply Qle_trans with minX; [apply Q.le_min_l|].
      apply Qle_trans with maxX; [assumption | apply Q.le_max_l].
    + apply Qle_trans with minY; [apply Q.le_min_l|].
      apply Qle_trans with maxY; [assumption | apply Q.le_max_l].
Qed.

Lemma getSelfRect_nonneg (l : Konva.Line) :
  let '(rx, ry, rw, rh) := Konva.getSelfRect l in 0 <= rw /\ 0 <= rh.
Proof.
  unfold Konva.getSelfRect.
  destruct (Konva.points l) as [|x0 [|y0 [|x1 [|y1 rest]]]]; simpl; try (split; lra).
  pose proof (extent_ordered rest
                (Qmin (Qmin x0 x0) x1) (Qmin (Qmin y0 y0) y1)
                (Qmax (Qmax x0 x0) x1) (Qmax (Qmax y0 y0) y1)) as H.
  destruct (Konva.extent rest _ _ _ _) as [[[a b] c] d].
  assert (HX : Qmin (Qmin x0 x0) x1 <= Qmax (Qmax x0 x0) x1).
  { apply Qle_trans with x1; [apply Q.le_min_r | apply Q.le_max_r]. }
  assert (HY : Qmin (Qmin y0 y0) y1 <= Qmax (Qmax y0 y0) y1).
  { apply Qle_trans with y1; [apply Q.le_min_r | apply Q.le_max_r]. }
  destruct (H HX HY) as [H1 H2]. split; lra.
Qed.

Lemma unionRects_ordered (ls : list Konva.Line) :
  forall acc, ordered acc -> ordered (Konva.unionRects ls acc).
Proof.
  induction ls as [|l rest IH]; intros acc Hacc; simpl; [assumption|].
  pose proof (getSelfRect_nonneg l) as Hl.
  destruct (Konva.getSelfRect l) as [[[rx ry] rw] rh]. destruct Hl as [Hw Hh].
  destruct (Qeq_bool rw 0 && Qeq_bool rh 0); [now apply IH|].
  destruct acc as [[[[minX minY] maxX] maxY]|]; apply IH; simpl.
  - destruct Hacc as [HX HY]. split.
    + apply Qle_trans with minX; [apply Q.le_min_l|].
      apply Qle_trans with maxX; [assumption | apply Q.le_max_l].
    + apply Qle_trans with minY; [apply Q.le_min_l|].
      apply Qle_trans with maxY; [assumption | apply Q.le_max_l].
  - split; lra.
Qed.

(** The own rectangle of a group is finite and has a non-negative
    width and height. *)
Lemma selfRect_shape (g : Konva.Group) :
  exists a b c d,
    Konva.selfRect g =
      {| Konva.x := Fin a; Konva.y := Fin b;
         Konva.width := Fin c; Konva.height := Fin d |}
    /\ 0 <= c /\ 0 <= d.
Proof.
  unfold Konva.selfRect.
  pose proof (unionRects_ordered (Konva.children g) None I) as H.
  destruct (Konva.unionRects (Konva.children g) None)
    as [[[[minX minY] maxX] maxY]|].
  - destruct H as [HX HY].
    exists minX, minY, (maxX - minX), (maxY - minY).
    split; [reflexivity | split; lra].
  - exists 0, 0, 0, 0. split; [reflexivity | split; lra].
Qed.

(** One axis of [transformedRect] under a finite, non-negative scale. *)
Lemma transformed_axis (pos sc off c len : Q) :
  0 <= sc -> 0 <= len ->
  let c0 := Konva.transformCoord (Fin pos) (Fin sc) (Fin off) (Fin c) in
  let c1 := Konva.transformCoord (Fin pos) (Fin sc) (Fin off) (Fin c + Fin len)%num in
  Num.has_value (Num.min c0 c1) (pos + sc * (c - off)) /\
  Num.has_value (Num.max c0 c1 - Num.min c0 c1)%num (sc * len).
Proof.
  intros Hs Hl. simpl.
  assert (Hle : sc * c + (pos + sc * - off)
                <= sc * (c + len) + (pos + sc * - off)) by nra.
  split.
  - rewrite (Q.min_l _ _ Hle). ring.
  - rewrite (Q.min_l _ _ Hle), (Q.max_r _ _ Hle). ring.
Qed.

(** The client rectangle of a group whose transform is finite with
    non-negative scale factors. *)
Lemma getClientRect_finite (g : Konva.Group) (a b c d px_ py_ sx sy ox oy : Q) :
  Konva.selfRect g =
    {| Konva.x := Fin a; Konva.y := Fin b;
       Konva.width := Fin c; Konva.height := Fin d |} ->
  0 <= c -> 0 <= d ->
  Konva.posX g = Fin px_ -> Konva.posY g = Fin py_ ->
  Konva.scaleX g = Fin sx -> Konva.scaleY g = Fin sy ->
  Konva.offsetX g = Fin ox -> Konva.offsetY g = Fin oy ->
  0 <= sx -> 0 <= sy ->
  rect_is (Konva.getClientRect g)
          (px_ + sx * (a - ox)) (py_ + sy * (b - oy)) (sx * c) (sy * d).
Proof.
  intros Hself Hc Hd HpX HpY HsX HsY HoX HoY Hsx Hsy.
  unfold Konva.getClientRect, Konva.transformedRect, rect_is.
  rewrite Hself, HpX, HpY, HsX, HsY, HoX, HoY. cbn [Konva.x Konva.y Konva.width Konva.height].
  destruct (transformed_axis px_ sx ox a c Hsx Hc) as [X1 X2].
  destruct (transformed_axis py_ sy oy b d Hsy Hd) as [Y1 Y2].
  repeat split; assumption.
Qed.

End KonvaGeometry.

(** * The fit of the two Konva revisions *)

Section KonvaFitFacts.

Lemma chosenScale_spec (cw ch tnw tnh : num) (w h tw th : Q) :
  Num.has_value cw w -> Num.has_value ch h ->
  Num.has_value tnw tw -> Num.has_value tnh th ->
  0 < w -> 0 < h -> 0 < tw -> 0 < th ->
  exists s, Num.has_value (chosenScale cw ch tnw tnh) s /\ 0 < s /\
            FitSpec w h tw th s.
Proof.
  intros Hcw Hch Htw Hth Hw Hh Htw0 Hth0.
  destruct (has_value_fin _ _ Hcw) as (w0 & -> & Ew).
  destruct (has_value_fin _ _ Hch) as (h0 & -> & Eh).
  destruct (has_value_fin _ _ Htw) as (tw0 & -> & Etw).
  destruct (has_value_fin _ _ Hth) as (th0 & -> & Eth).
  unfold chosenScale.
  assert (Hh0 : ~ h0 == 0) by (rewrite Eh; lra).
  assert (Hw0 : ~ w0 == 0) by (rewrite Ew; lra).
  assert (Hth0' : ~ th0 == 0) by (rewrite Eth; lra).
  rewrite (div_fin w0 h0 Hh0), (div_fin tw0 th0 Hth0').
  destruct (Qlt_le_dec (tw / th) (w / h)) as [Hlt | Hle].
  - rewrite gt_fin_true by (rewrite Ew, Eh, Etw, Eth; exact Hlt).
    rewrite (div_fin tw0 w0 Hw0).
    exists (tw / w). split; [simpl; now rewrite Etw, Ew|].
    split; [apply Qlt_shift_div_l; lra|].
    apply fit_width_branch; assumption.
  - rewrite gt_fin_false by (rewrite Ew, Eh, Etw, Eth; exact Hle).
    rewrite (div_fin th0 h0 Hh0).
    exists (th / h). split; [simpl; now rewrite Eth, Eh|].
    split; [apply Qlt_shift_div_l; lra|].
    apply fit_height_branch; assumption.
Qed.

Lemma scale_branches (g : Konva.Group) (c : bool) (a b : num) :
  (if c then Konva.scale g a a else Konva.scale g b b)
  = Konva.scale g (if c then a else b) (if c then a else b).
Proof. now destruct c. Qed.

Lemma add_lines_untransformed (f : polyline -> Konva.Line) (pls : list polyline) :
  forall g, untransformed g ->
            untransformed (fold_left (fun group pl => Konva.add group (f pl)) pls g).
Proof.
  induction pls as [|pl rest IH]; intros g Hg; simpl; [assumption|].
  apply IH. exact Hg.
Qed.

Lemma buildGroup_untransformed (polylines : list polyline) :
  untransformed (KonvaFit.buildGroup polylines).
Proof.
  apply add_lines_untransformed. repeat split.
Qed.

Lemma buildGroup_same (polylines : list polyline) :
  KonvaOffset.buildGroup polylines = KonvaFit.buildGroup polylines.
Proof. reflexivity. Qed.

(** The client rectangle of a fresh group is its own rectangle. *)
Lemma fresh_clientRect (g : Konva.Group) (bx by_ w h : Q) :
  untransformed g ->
  rect_is (Konva.getClientRect g) bx by_ w h ->
  exists a b c d,
    Konva.selfRect g =
      {| Konva.x := Fin a; Konva.y := Fin b;
         Konva.width := Fin c; Konva.height := Fin d |}
    /\ a == bx /\ b == by_ /\ c == w /\ d == h /\ 0 <= c /\ 0 <= d.
Proof.
  intros (HpX & HpY & HsX & HsY & HoX & HoY) Hr.
  destruct (selfRect_shape g) as (a & b & c & d & Hself & Hc & Hd).
  exists a, b, c, d. split; [exact Hself|].
  assert (H1 : 0 <= inject_Z 1) by (unfold inject_Z, Qle; simpl; lia).
  pose proof (getClientRect_finite g a b c d _ _ _ _ _ _
                Hself Hc Hd HpX HpY HsX HsY HoX HoY H1 H1) as Hc0.
  destruct Hr as (R1 & R2 & R3 & R4). destruct Hc0 as (C1 & C2 & C3 & C4).
  destruct (Konva.getClientRect g) as [rx ry rw rh]; simpl in *.
  destruct rx, ry, rw, rh; simpl in *; try contradiction.
  assert (E0 : inject_Z 0 == 0) by reflexivity.
  assert (E1 : inject_Z 1 == 1) by reflexivity.
  rewrite E0, E1 in *.
  repeat match goal with |- _ /\ _ => split end; try assumption; lra.
Qed.

End KonvaFitFacts.

(** * What the fit leaves behind *)

Section KonvaFitResults.

Lemma has_value_eq (a : num) (p q : Q) :
  Num.has_value a p -> p == q -> Num.has_value a q.
Proof. destruct a; simpl; try contradiction. intros H E. now rewrite H. Qed.

Lemma rect_is_eq (r : Konva.Rect) (a b c d a' b' c' d' : Q) :
  rect_is r a b c d -> a == a' -> b == b' -> c == c' -> d == d' ->
  rect_is r a' b' c' d'.
Proof.
  intros (H1 & H2 & H3 & H4) E1 E2 E3 E4.
  repeat split; eapply has_value_eq; eassumption.
Qed.

Lemma rect_is_fin (r : Konva.Rect) (a b c d : Q) :
  rect_is r a b c d ->
  exists a0 b0 c0 d0,
    r = {| Konva.x := Fin a0; Konva.y := Fin b0;
           Konva.width := Fin c0; Konva.height := Fin d0 |}
    /\ a0 == a /\ b0 == b /\ c0 == c /\ d0 == d.
Proof.
  intros (H1 & H2 & H3 & H4). destruct r as [rx ry rw rh]; simpl in *.
  destruct (has_value_fin _ _ H1) as (a0 & -> & E1).
  destruct (has_value_fin _ _ H2) as (b0 & -> & E2).
  destruct (has_value_fin _ _ H3) as (c0 & -> & E3).
  destruct (has_value_fin _ _ H4) as (d0 & -> & E4).
  exists a0, b0, c0, d0. repeat split; assumption.
Qed.

(** A content with one side of length zero is still given a finite,
    positive scale. *)
Lemma chosenScale_positive (cw ch tnw tnh : num) (w h tw th : Q) :
  Num.has_value cw w -> Num.has_value ch h ->
  Num.has_value tnw tw -> Num.has_value tnh th ->
  0 <= w -> 0 <= h -> 0 < w \/ 0 < h -> 0 < tw -> 0 < th ->
  exists s, Num.has_value (chosenScale cw ch tnw tnh) s /\ 0 < s.
Proof.
  intros Hcw Hch Htw Hth Hw Hh Hpos Htw0 Hth0.
  destruct (Qlt_le_dec 0 w) as [Hw1 | Hw1]; destruct (Qlt_le_dec 0 h) as [Hh1 | Hh1].
  - destruct (chosenScale_spec cw ch tnw tnh w h tw th) as (s & Hs & Hsp & _);
      try assumption.
    exists s. split; assumption.
  - (* a horizontal stroke: the ratio is infinite, the width decides *)
    destruct (has_value_fin _ _ Hcw) as (w0 & -> & Ew).
    destruct (has_value_fin _ _ Hch) as (h0 & -> & Eh).
    destruct (has_value_fin _ _ Htw) as (tw0 & -> & Etw).
    destruct (has_value_fin _ _ Hth) as (th0 & -> & Eth).
    unfold chosenScale.
    assert (Hh0 : h0 == 0) by lra.
    assert (Hw0 : ~ w0 == 0) by (rewrite Ew; lra).
    assert (Hth0' : ~ th0 == 0) by (rewrite Eth; lra).
    rewrite (div_fin tw0 th0 Hth0'), (div_fin tw0 w0 Hw0).
    simpl Num.div at 1.
    apply Qeq_bool_iff in Hh0. rewrite Hh0.
    assert (Hgt : (w0 ?= 0)%Q = Gt) by (apply Qgt_alt; rewrite Ew; exact Hw1).
    rewrite Hgt. simpl.
    exists (tw / w). split; [now rewrite Etw, Ew|].
    apply Qlt_shift_div_l; lra.
  - (* a vertical stroke: the ratio is zero, the height decides *)
    destruct (has_value_fin _ _ Hcw) as (w0 & -> & Ew).
    destruct (has_value_fin _ _ Hch) as (h0 & -> & Eh).
    destruct (has_value_fin _ _ Htw) as (tw0 & -> & Etw).
    destruct (has_value_fin _ _ Hth) as (th0 & -> & Eth).
    unfold chosenScale.
    assert (Hh0 : ~ h0 == 0) by (rewrite Eh; lra).
    assert (Hth0' : ~ th0 == 0) by (rewrite Eth; lra).
    rewrite (div_fin w0 h0 Hh0), (div_fin tw0 th0 Hth0'), (div_fin th0 h0 Hh0).
    assert (Hw0 : w0 == 0) by lra.
    rewrite gt_fin_false.
    + exists (th / h). split; [simpl; now rewrite Eth, Eh|].
      apply Qlt_shift_div_l; lra.
    + rewrite Hw0. setoid_replace (0 / h0) with 0 by (field; exact Hh0).
      apply Qle_shift_div_l; [rewrite Eth; lra | rewrite Etw; lra].
  - exfalso. destruct Hpos; lra.
Qed.


(** What [fitGroup] leaves behind, given the scale that its branches
    selected. *)
Lemma fitGroup_geometry (g : Konva.Group) (W H m bx by_ w h s : Q) :
  untransformed g ->
  rect_is (Konva.getClientRect g) bx by_ w h ->
  Num.has_value
    (chosenScale (Konva.width (Konva.getClientRect g))
                 (Konva.height (Konva.getClientRect g))
                 (Fin W - Fin m)%num (Fin H - Fin m)%num) s ->
  0 <= s ->
  let g' := KonvaFit.fitGroup g {| KonvaFit.width := Fin W; KonvaFit.height := Fin H |}
                              (Fin m) in
  Num.has_value (Konva.scaleX g') s /\ Num.has_value (Konva.scaleY g') s /\
  Num.has_value (Konva.posX g') ((358 - s * w) / 2 - s * bx) /\
  Num.has_value (Konva.posY g') ((123 - s * h) / 2 - s * by_) /\
  rect_is (Konva.getClientRect g')
          ((358 - s * w) / 2) ((123 - s * h) / 2) (s * w) (s * h).
Proof.
  intros Hg Hr Hs Hspos.
  destruct (fresh_clientRect g bx by_ w h Hg Hr)
    as (a & b & c & d & Hself & Ea & Eb & Ec & Ed & Hc & Hd).
  destruct Hg as (HpX & HpY & HsX & HsY & HoX & HoY).
  destruct (rect_is_fin _ _ _ _ _ Hr)
    as (x0 & y0 & w0 & h0 & Hcr & Ex0 & Ey0 & Ew0 & Eh0).
  destruct (has_value_fin _ _ Hs) as (s0 & Hs0 & Es0).
  unfold KonvaFit.fitGroup. cbv zeta.
  rewrite scale_branches.
  cbn [KonvaFit.width KonvaFit.height].
  fold (chosenScale (Konva.width (Konva.getClientRect g))
                    (Konva.height (Konva.getClientRect g))
                    (Fin W - Fin m)%num (Fin H - Fin m)%num).
  rewrite Hs0.
  set (g1 := Konva.scale g (Fin s0) (Fin s0)).
  assert (Hs0pos : 0 <= s0) by (rewrite Es0; lra).
  assert (Hcr1 : rect_is (Konva.getClientRect g1)
                   (inject_Z 0 + s0 * (a - inject_Z 0))
                   (inject_Z 0 + s0 * (b - inject_Z 0)) (s0 * c) (s0 * d)).
  { apply getClientRect_finite; try assumption; reflexivity. }
  destruct (rect_is_fin _ _ _ _ _ Hcr1)
    as (x1 & y1 & w1 & h1 & Hcr1' & Ex1 & Ey1 & Ew1 & Eh1).
  rewrite Hcr1'. cbn [Konva.x Konva.y Konva.width Konva.height].
  assert (Hdx : exists dx, ((IBB_WIDTH - Fin w1) / lit 2 - Fin x1)%num = Fin dx
                           /\ dx == (358 - w1) / 2 - x1).
  { eexists. split; [reflexivity|]. unfold IBB_WIDTH, lit. simpl. field. }
  assert (Hdy : exists dy, ((IBB_HEIGHT - Fin h1) / lit 2 - Fin y1)%num = Fin dy
                           /\ dy == (123 - h1) / 2 - y1).
  { eexists. split; [reflexivity|]. unfold IBB_HEIGHT, lit. simpl. field. }
  destruct Hdx as (dx & -> & Edx). destruct Hdy as (dy & -> & Edy).
  set (g2 := Konva.move g1 (Fin dx) (Fin dy)).
  assert (HX2 : Konva.posX g2 = Fin (inject_Z 0 + dx)).
  { unfold g2, Konva.move, g1. simpl. rewrite HpX. reflexivity. }
  assert (HY2 : Konva.posY g2 = Fin (inject_Z 0 + dy)).
  { unfold g2, Konva.move, g1. simpl. rewrite HpY. reflexivity. }
  assert (Hcr2 : rect_is (Konva.getClientRect g2)
                   (inject_Z 0 + dx + s0 * (a - inject_Z 0))
                   (inject_Z 0 + dy + s0 * (b - inject_Z 0)) (s0 * c) (s0 * d)).
  { apply getClientRect_finite; try assumption; reflexivity. }
  assert (E0 : inject_Z 0 == 0) by reflexivity.
  split; [simpl; exact Es0|]. split; [simpl; exact Es0|].
  split. { rewrite HX2. simpl. rewrite Edx, Ew1, Ex1, Ec, Es0, Ea, E0. field. }
  split. { rewrite HY2. simpl. rewrite Edy, Eh1, Ey1, Ed, Es0, Eb, E0. field. }
  eapply rect_is_eq; [exact Hcr2 | | | | ].
  - rewrite Edx, Ew1, Ex1, Ec, Es0, E0. field.
  - rewrite Edy, Eh1, Ey1, Ed, Es0, E0. field.
  - rewrite Ec, Es0. reflexivity.
  - rewrite Ed, Es0. reflexivity.
Qed.

(** What the fit of static/js/scripts.js leaves behind, given the
    scale that its branches selected. *)
Lemma fit_geometry (g : Konva.Group) (bx by_ w h s : Q) :
  untransformed g ->
  rect_is (Konva.getClientRect g) bx by_ w h ->
  Num.has_value
    (chosenScale (Konva.width (Konva.getClientRect g))
                 (Konva.height (Konva.getClientRect g))
                 (IBB_WIDTH - KonvaOffset.MARGIN)%num
                 (IBB_HEIGHT - KonvaOffset.MARGIN)%num) s ->
  0 <= s ->
  let g' := KonvaOffset.fit g in
  Num.has_value (Konva.scaleX g') s /\ Num.has_value (Konva.scaleY g') s /\
  Num.has_value (Konva.posX g') 179 /\
  Num.has_value (Konva.posY g') (123 / 2) /\
  Num.has_value (Konva.offsetX g') (w / 2 + bx) /\
  Num.has_value (Konva.offsetY g') (h / 2 + by_) /\
  rect_is (Konva.getClientRect g')
          (179 - s * w / 2) (123 / 2 - s * h / 2) (s * w) (s * h).
Proof.
  intros Hg Hr Hs Hspos.
  destruct (fresh_clientRect g bx by_ w h Hg Hr)
    as (a & b & c & d & Hself & Ea & Eb & Ec & Ed & Hc & Hd).
  destruct Hg as (HpX & HpY & HsX & HsY & HoX & HoY).
  destruct (rect_is_fin _ _ _ _ _ Hr)
    as (x0 & y0 & w0 & h0 & Hcr & Ex0 & Ey0 & Ew0 & Eh0).
  destruct (has_value_fin _ _ Hs) as (s0 & Hs0 & Es0).
  unfold KonvaOffset.fit. cbv zeta.
  rewrite scale_branches.
  fold (chosenScale (Konva.width (Konva.getClientRect g))
                    (Konva.height (Konva.getClientRect g))
                    (IBB_WIDTH - KonvaOffset.MARGIN)%num
                    (IBB_HEIGHT - KonvaOffset.MARGIN)%num).
  rewrite Hs0, Hcr. cbn [Konva.x Konva.y Konva.width Konva.height].
  assert (Hox : exists ox, (Fin w0 / lit 2 + Fin x0)%num = Fin ox /\ ox == w0 / 2 + x0).
  { eexists. split; [reflexivity|]. unfold lit. simpl. field. }
  assert (Hoy : exists oy, (Fin h0 / lit 2 + Fin y0)%num = Fin oy /\ oy == h0 / 2 + y0).
  { eexists. split; [reflexivity|]. unfold lit. simpl. field. }
  destruct Hox as (ox & -> & Eox). destruct Hoy as (oy & -> & Eoy).
  assert (Hcx : exists cx, (IBB_WIDTH / lit 2)%num = Fin cx /\ cx == 179).
  { eexists. split; reflexivity. }
  assert (Hcy : exists cy, (IBB_HEIGHT / lit 2)%num = Fin cy /\ cy == 123 / 2).
  { eexists. split; reflexivity. }
  destruct Hcx as (cx & -> & Ecx). destruct Hcy as (cy & -> & Ecy).
  set (g2 := Konva.position _ _ _).
  assert (Hs0pos : 0 <= s0) by (rewrite Es0; lra).
  assert (Hcr2 : rect_is (Konva.getClientRect g2)
                   (cx + s0 * (a - ox)) (cy + s0 * (b - oy)) (s0 * c) (s0 * d)).
  { apply getClientRect_finite; try assumption; reflexivity. }
  split; [simpl; exact Es0|]. split; [simpl; exact Es0|].
  split; [simpl; exact Ecx|]. split; [simpl; exact Ecy|].
  split; [simpl; rewrite Eox, Ew0, Ex0; reflexivity|].
  split; [simpl; rewrite Eoy, Eh0, Ey0; reflexivity|].
  eapply rect_is_eq; [exact Hcr2 | | | | ].
  - rewrite Ecx, Eox, Ew0, Ex0, Ea, Es0. field.
  - rewrite Ecy, Eoy, Eh0, Ey0, Eb, Es0. field.
  - rewrite Ec, Es0. reflexivity.
  - rewrite Ed, Es0. reflexivity.
Qed.

End KonvaFitResults.

(** * The fit of the fabric.js revision *)

Section FabricFit.

Lemma fabric_buildGroup_unscaled (polylines : list polyline) :
  Fabric.scaleX (Fabric.buildGroup polylines) = lit 1 /\
  Fabric.scaleY (Fabric.buildGroup polylines) = lit 1.
Proof.
  unfold Fabric.buildGroup, Fabric.new_Group.
  destruct (map _ polylines); split; reflexivity.
Qed.

(** The factor that [scaleToWidth] and [scaleToHeight] apply to an
    unscaled object. *)
Lemma scaleTo_factor (value size : Q) :
  ~ size == 0 ->
  exists s, (Fin value / Fin size / (Fin size * lit 1 / (Fin size * lit 1)))%num = Fin s
            /\ s == value / size.
Proof.
  intros Hs.
  assert (Hs1 : ~ size * inject_Z 1 == 0).
  { intros E. apply Hs. rewrite <- E. unfold inject_Z. ring. }
  assert (H1 : ~ size * inject_Z 1 / (size * inject_Z 1) == 0).
  { intros E. assert (F : size * inject_Z 1 / (size * inject_Z 1) == 1) by (field; exact Hs).
    rewrite F in E. discriminate E. }
  unfold lit. cbn [Num.mul].
  rewrite (div_fin value size Hs), (div_fin _ _ Hs1), (div_fin _ _ H1).
  eexists. split; [reflexivity|]. field. exact Hs.
Qed.

Lemma fabric_fit_position (o : Fabric.Object) (gw gh : Q) :
  Num.has_value (Fabric.width o) gw -> Num.has_value (Fabric.height o) gh ->
  0 < gw -> 0 < gh ->
  Fabric.scaleX o = lit 1 -> Fabric.scaleY o = lit 1 ->
  exists s,
    0 < s /\
    Num.has_value (Fabric.scaleX (Fabric.fit o)) s /\
    Num.has_value (Fabric.scaleY (Fabric.fit o)) s /\
    Num.has_value (Fabric.left (Fabric.fit o)) (358 * 3 / 2 - gw * s / 2) /\
    Num.has_value (Fabric.top (Fabric.fit o)) (5 * 3) /\
    Num.has_value (Fabric.width (Fabric.fit o)) gw /\
    Num.has_value (Fabric.height (Fabric.fit o)) gh /\
    ((123 * 3 / (358 * 3) < gh / gw /\ s == (123 * 3 - 5 * 3 * 2) / gh) \/
     (gh / gw <= 123 * 3 / (358 * 3) /\ s == (358 * 3 - 5 * 3 * 2) / gw)).
Proof.
  intros Hw Hh Hgw Hgh HsX HsY.
  destruct o as [objs l t w h sx sy ol ot].
  cbn [Fabric.width Fabric.height Fabric.scaleX Fabric.scaleY] in Hw, Hh, HsX, HsY.
  subst sx sy.
  destruct (has_value_fin _ _ Hw) as (w0 & -> & Ew).
  destruct (has_value_fin _ _ Hh) as (h0 & -> & Eh).
  assert (Hw0 : ~ w0 == 0) by (rewrite Ew; lra).
  assert (Hh0 : ~ h0 == 0) by (rewrite Eh; lra).
  unfold Fabric.fit. cbv zeta.
  cbn [Fabric.width Fabric.height].
  rewrite (div_fin h0 w0 Hw0).
  change (IBB_HEIGHT * PREVIEW_SCALE_FACTOR / (IBB_WIDTH * PREVIEW_SCALE_FACTOR))%num
    with (Fin (inject_Z 123 * inject_Z 3 / (inject_Z 358 * inject_Z 3))).
  change (IBB_HEIGHT * PREVIEW_SCALE_FACTOR - lit 5 * PREVIEW_SCALE_FACTOR * lit 2)%num
    with (Fin (inject_Z 123 * inject_Z 3 + - (inject_Z 5 * inject_Z 3 * inject_Z 2))).
  change (IBB_WIDTH * PREVIEW_SCALE_FACTOR - lit 5 * PREVIEW_SCALE_FACTOR * lit 2)%num
    with (Fin (inject_Z 358 * inject_Z 3 + - (inject_Z 5 * inject_Z 3 * inject_Z 2))).
  change (IBB_WIDTH * PREVIEW_SCALE_FACTOR / lit 2)%num
    with (Fin (inject_Z 358 * inject_Z 3 / inject_Z 2)).
  change (lit 5 * PREVIEW_SCALE_FACTOR)%num with (Fin (inject_Z 5 * inject_Z 3)).
  assert (Er : inject_Z 123 * inject_Z 3 / (inject_Z 358 * inject_Z 3)
               == 123 * 3 / (358 * 3)) by reflexivity.
  assert (Evh : inject_Z 123 * inject_Z 3 + - (inject_Z 5 * inject_Z 3 * inject_Z 2)
               == 123 * 3 - 5 * 3 * 2) by reflexivity.
  assert (Evw : inject_Z 358 * inject_Z 3 + - (inject_Z 5 * inject_Z 3 * inject_Z 2)
               == 358 * 3 - 5 * 3 * 2) by reflexivity.
  assert (Ecx : inject_Z 358 * inject_Z 3 / inject_Z 2 == 358 * 3 / 2) by reflexivity.
  assert (Eoff : inject_Z 5 * inject_Z 3 == 5 * 3) by reflexivity.
  assert (E2 : inject_Z 2 == 2) by reflexivity.
  destruct (Qlt_le_dec (123 * 3 / (358 * 3)) (gh / gw)) as [Hlt | Hle].
  - rewrite gt_fin_true by (rewrite Er, Eh, Ew; exact Hlt).
    unfold Fabric.scaleToHeight. cbn [Fabric.height Fabric.scaleY].
    destruct (scaleTo_factor
                (inject_Z 123 * inject_Z 3 + - (inject_Z 5 * inject_Z 3 * inject_Z 2))
                h0 Hh0) as (s0 & -> & Es0).
    exists ((123 * 3 - 5 * 3 * 2) / gh).
    assert (Es : s0 == (123 * 3 - 5 * 3 * 2) / gh) by (rewrite Es0, Evh, Eh; reflexivity).
    split; [apply Qlt_shift_div_l; lra|].
    unfold Fabric.setPositionByOrigin_center_top, Fabric.scale.
    cbn -[Qeq Qmult Qplus Qdiv Qopp Qinv inject_Z Qeq_bool].
    change (Qeq_bool (inject_Z 2) 0) with false.
    cbn -[Qeq Qmult Qplus Qdiv Qopp Qinv inject_Z].
    split; [exact Es|]. split; [exact Es|].
    split; [rewrite Es, Ew, Ecx, E2; field; lra|].
    split; [rewrite Eoff; field|].
    split; [exact Ew|]. split; [exact Eh|].
    left. split; [exact Hlt | reflexivity].
  - rewrite gt_fin_false by (rewrite Er, Eh, Ew; exact Hle).
    unfold Fabric.scaleToWidth. cbn [Fabric.width Fabric.scaleX].
    destruct (scaleTo_factor
                (inject_Z 358 * inject_Z 3 + - (inject_Z 5 * inject_Z 3 * inject_Z 2))
                w0 Hw0) as (s0 & -> & Es0).
    exists ((358 * 3 - 5 * 3 * 2) / gw).
    assert (Es : s0 == (358 * 3 - 5 * 3 * 2) / gw) by (rewrite Es0, Evw, Ew; reflexivity).
    split; [apply Qlt_shift_div_l; lra|].
    unfold Fabric.setPositionByOrigin_center_top, Fabric.scale.
    cbn -[Qeq Qmult Qplus Qdiv Qopp Qinv inject_Z Qeq_bool].
    change (Qeq_bool (inject_Z 2) 0) with false.
    cbn -[Qeq Qmult Qplus Qdiv Qopp Qinv inject_Z].
    split; [exact Es|]. split; [exact Es|].
    split; [rewrite Es, Ew, Ecx, E2; field; lra|].
    split; [rewrite Eoff; field|].
    split; [exact Ew|]. split; [exact Eh|].
    right. split; [exact Hle | reflexivity].
Qed.
End FabricFit.

(** * The claims about the fit *)

Section FitClaims.

(** C1, as amended.  For every polyline set whose bounding box has a
    positive width [w] and height [h], and every bounds [W] by [H] and
    margin [m] that leave a positive target [W - m] by [H - m],
    [fitGroup] applies one scale [s] to both axes; the width decides
    exactly when [w / h > (W - m) / (H - m)] and the height otherwise;
    the scaled content, [s * w] by [s * h], fits the target; no larger
    uniform scale fits; the deciding axis is filled, and the other
    axis is filled only when the two aspect ratios are equal (the
    height then decides).  The fit of static/js/scripts.js does the
    same for the target 358 - 10 by 123 - 10. *)
Theorem fit_scale_binding_axis
  (polylines : list polyline) (W H m bx by_ w h : Q) :
  rect_is (Konva.getClientRect (KonvaFit.buildGroup polylines)) bx by_ w h ->
  0 < w -> 0 < h -> m < W -> m < H ->
  (exists s,
      FitSpec w h (W - m) (H - m) s /\
      let g' := KonvaFit.fitGroup (KonvaFit.buildGroup polylines)
                  {| KonvaFit.width := Fin W; KonvaFit.height := Fin H |} (Fin m) in
      Num.has_value (Konva.scaleX g') s /\ Num.has_value (Konva.scaleY g') s /\
      Num.has_value (Konva.width (Konva.getClientRect g')) (s * w) /\
      Num.has_value (Konva.height (Konva.getClientRect g')) (s * h))
  /\
  (exists s,
      FitSpec w h (358 - 10) (123 - 10) s /\
      let g' := KonvaOffset.fit (KonvaOffset.buildGroup polylines) in
      Num.has_value (Konva.scaleX g') s /\ Num.has_value (Konva.scaleY g') s /\
      Num.has_value (Konva.width (Konva.getClientRect g')) (s * w) /\
      Num.has_value (Konva.height (Konva.getClientRect g')) (s * h)).
Proof.
  intros Hr Hw Hh HW HH.
  pose proof (buildGroup_untransformed polylines) as Hg.
  destruct (rect_is_fin _ _ _ _ _ Hr)
    as (x0 & y0 & w0 & h0 & Hcr & Ex0 & Ey0 & Ew0 & Eh0).
  split.
  - destruct (chosenScale_spec
                (Konva.width (Konva.getClientRect (KonvaFit.buildGroup polylines)))
                (Konva.height (Konva.getClientRect (KonvaFit.buildGroup polylines)))
                (Fin W - Fin m)%num (Fin H - Fin m)%num w h (W - m) (H - m))
      as (s & Hs & Hspos & Hfit);
      try (rewrite Hcr; simpl; assumption); try lra; try (simpl; lra).
    exists s. split; [exact Hfit|].
    destruct (fitGroup_geometry _ W H m bx by_ w h s Hg Hr Hs (Qlt_le_weak _ _ Hspos))
      as (S1 & S2 & _ & _ & (_ & _ & R3 & R4)).
    cbv zeta. repeat split; assumption.
  - rewrite buildGroup_same.
    destruct (chosenScale_spec
                (Konva.width (Konva.getClientRect (KonvaFit.buildGroup polylines)))
                (Konva.height (Konva.getClientRect (KonvaFit.buildGroup polylines)))
                (IBB_WIDTH - KonvaOffset.MARGIN)%num
                (IBB_HEIGHT - KonvaOffset.MARGIN)%num w h (358 - 10) (123 - 10))
      as (s & Hs & Hspos & Hfit);
      try (rewrite Hcr; simpl; assumption); try lra; try reflexivity.
    exists s. split; [exact Hfit|].
    destruct (fit_geometry _ bx by_ w h s Hg Hr Hs (Qlt_le_weak _ _ Hspos))
      as (S1 & S2 & _ & _ & _ & _ & (_ & _ & R3 & R4)).
    cbv zeta. repeat split; assumption.
Qed.

Lemma fit_scale_binding_axis_witness :
  rect_is (Konva.getClientRect
             (KonvaFit.buildGroup [[pt 0 0; pt 10 0; pt 10 10]])) 0 0 10 10 /\
  exists s,
    FitSpec 10 10 (358 - 10) (123 - 10) s /\
    Num.has_value
      (Konva.scaleX
         (KonvaFit.fitGroup (KonvaFit.buildGroup [[pt 0 0; pt 10 0; pt 10 10]])
            {| KonvaFit.width := Fin 358; KonvaFit.height := Fin 123 |} (Fin 10))) s.
Proof.
  assert (Hr : rect_is (Konva.getClientRect
             (KonvaFit.buildGroup [[pt 0 0; pt 10 0; pt 10 10]])) 0 0 10 10).
  { vm_compute. repeat split. }
  split; [exact Hr|].
  destruct (fit_scale_binding_axis [[pt 0 0; pt 10 0; pt 10 10]] 358 123 10 0 0 10 10)
    as [(s & Hfit & Hs & _) _]; [exact Hr | reflexivity ..|].
  exists s. split; assumption.
Defined.

(** C1, as first stated, fails where the aspect ratios are equal: a
    content of 348 by 113 is scaled by 1 and fills both axes, not only
    the height that decided. *)
Lemma fit_fills_both_axes_at_equal_ratio :
  ~ FitClaim
      (Konva.getClientRect (KonvaOffset.buildGroup [[pt 0 0; pt 348 113]]))
      (KonvaOffset.fit (KonvaOffset.buildGroup [[pt 0 0; pt 348 113]]))
      (358 - 10) (123 - 10).
Proof.
  intros Hclaim.
  destruct (Hclaim 0 0 348 113 1) as (_ & [(_ & Hother) | (_ & Hother)]).
  - vm_compute. repeat split.
  - reflexivity.
  - reflexivity.
  - vm_compute. reflexivity.
  - apply Hother. reflexivity.
  - apply Hother. reflexivity.
Qed.

(** Why the target must stay positive: with bounds 5 by 5 and a margin
    of 10 the target is -5 by -5; a content of 2 by 1 is given the
    scale -5 / 2 and comes out mirrored, 5 wide, which does not fit. *)
Remark fit_needs_a_positive_target :
  let g' := KonvaFit.fitGroup (KonvaFit.buildGroup [[pt 0 0; pt 2 1]])
              {| KonvaFit.width := Fin 5; KonvaFit.height := Fin 5 |} (Fin 10) in
  Num.has_value (Konva.scaleX g') (- (5 / 2)) /\
  Num.has_value (Konva.width (Konva.getClientRect g')) 5 /\
  ~ 5 <= 5 - 10.
Proof.
  cbv zeta. split; [vm_compute; reflexivity|].
  split; [vm_compute; reflexivity|]. intros H. vm_compute in H. apply H. reflexivity.
Qed.

End FitClaims.

(** * The claims about centring *)

Section CentreClaims.

Lemma rect_centre (r : Konva.Rect) (a b c d cx cy : Q) :
  rect_is r a b c d -> a + c / 2 == cx -> b + d / 2 == cy -> centred_at r cx cy.
Proof.
  intros Hr Ex Ey.
  destruct (rect_is_fin _ _ _ _ _ Hr) as (a0 & b0 & c0 & d0 & -> & Ea & Eb & Ec & Ed).
  unfold centred_at, lit. cbn [Konva.x Konva.y Konva.width Konva.height].
  assert (H2 : ~ inject_Z 2 == 0) by discriminate.
  rewrite !(div_fin _ _ H2). simpl.
  split.
  - rewrite <- Ex, Ea, Ec. reflexivity.
  - rewrite <- Ey, Eb, Ed. reflexivity.
Qed.


End CentreClaims.



(** * The claims about responses and their order *)

Section ResponseClaims.

Lemma run_snoc_offset (es : list KonvaOffset.event) (e : KonvaOffset.event) :
  forall p,
    fst (KonvaOffset.run (es ++ [e]) p)
    = fst (KonvaOffset.step e (fst (KonvaOffset.run es p))).
Proof.
  induction es as [|e0 rest IH]; intros p; simpl.
  - destruct (KonvaOffset.step e p). reflexivity.
  - destruct (KonvaOffset.step e0 p) as [p1 out1].
    specialize (IH p1).
    destruct (KonvaOffset.run (rest ++ [e]) p1) as [p2 out2].
    destruct (KonvaOffset.run rest p1) as [p3 out3].
    simpl in *. exact IH.
Qed.

Lemma run_snoc_fit (es : list KonvaFit.event) (e : KonvaFit.event) :
  forall p,
    fst (KonvaFit.run (es ++ [e]) p)
    = fst (KonvaFit.step e (fst (KonvaFit.run es p))).
Proof.
  induction es as [|e0 rest IH]; intros p; simpl.
  - destruct (KonvaFit.step e p). reflexivity.
  - destruct (KonvaFit.step e0 p) as [p1 out1].
    specialize (IH p1).
    destruct (KonvaFit.run (rest ++ [e]) p1) as [p2 out2].
    destruct (KonvaFit.run rest p1) as [p3 out3].
    simpl in *. exact IH.
Qed.




End ResponseClaims.

(** * The claims about submitting and about errors *)

Section SubmitClaims.

(** C6.  Whenever submit is invoked while no polyline group is live
    (no child of the layer is named [polylines]; the fabric.js canvas
    holds no object), the only effect is the alert that no object is
    loaded: no request is issued, and the page is left as it was. *)
Theorem submit_guard_when_empty
  (printMode : string)
  (p1 : KonvaOffset.Page) (p2 : KonvaFit.Page) (p3 : Fabric.Page) :
  liveGroups (KonvaOffset.layer p1) = [] ->
  liveGroups (KonvaFit.layer p2) = [] ->
  Fabric.canvas p3 = [] ->
  KonvaOffset.printObject printMode p1 = (p1, [Alert MSG_NO_OBJECT]) /\
  KonvaFit.printObject printMode p2 = (p2, [Alert MSG_NO_OBJECT]) /\
  Fabric.printObject printMode p3 = (p3, [Alert MSG_NO_OBJECT]).
Proof.
  intros H1 H2 H3.
  unfold KonvaOffset.printObject, KonvaFit.printObject, Fabric.printObject.
  unfold liveGroups in H1, H2. rewrite H1, H2, H3. simpl.
  repeat split.
Qed.

Lemma submit_guard_when_empty_witness :
  KonvaOffset.printObject "once" KonvaOffset.initial
  = (KonvaOffset.initial, [Alert MSG_NO_OBJECT]).
Proof.
  exact (proj1 (submit_guard_when_empty "once"
                  KonvaOffset.initial KonvaFit.initial Fabric.initial
                  eq_refl eq_refl eq_refl)).
Defined.

(** C7.  A decomposition response with a non-success status leaves the
    page as it was, the rendered preview included: the layer is neither
    cleared nor replaced.  A submission response other than 204 leaves
    the page, and with it the placement of the group, as it was.  In
    both cases the only effects are the log line and one alert. *)
Theorem errors_leave_the_page
  (r : response (list polyline)) (r' : response unit) (printMode : string)
  (p1 : KonvaOffset.Page) (p2 : KonvaFit.Page) (p3 : Fabric.Page) :
  ok r = false -> status r' <> 204%nat ->
  (KonvaOffset.loadSvg_resume r p1
     = (p1, [errorLog (status r); Alert (errorAlert (status r))]) /\
   KonvaFit.loadSvg_resume r p2
     = (p2, [errorLog (status r); Alert (errorAlert (status r))]) /\
   Fabric.loadSvg_resume r p3
     = (p3, [errorLog (status r); Alert (errorAlert (status r))]))
  /\
  (KonvaOffset.printObject_resume printMode r' p1
     = (p1, [errorLog (status r'); Alert (errorAlert (status r'))]) /\
   KonvaFit.printObject_resume printMode r' p2
     = (p2, [errorLog (status r'); Alert (errorAlert (status r'))]) /\
   Fabric.printObject_resume printMode r' p3
     = (p3, [errorLog (status r'); Alert (errorAlert (status r'))])).
Proof.
  intros Hok H204.
  apply Nat.eqb_neq in H204.
  unfold KonvaOffset.loadSvg_resume, KonvaFit.loadSvg_resume, Fabric.loadSvg_resume,
    KonvaOffset.printObject_resume, KonvaFit.printObject_resume,
    Fabric.printObject_resume, errorLog, errorAlert.
  rewrite Hok, H204.
  destruct (Nat.eqb (status r) 400), (Nat.eqb (status r') 400); repeat split.
Qed.

Lemma errors_leave_the_page_witness :
  KonvaOffset.loadSvg_resume {| status := 500; json := None |} KonvaOffset.initial
  = (KonvaOffset.initial, [errorLog 500; Alert (errorAlert 500)]).
Proof.
  refine (proj1 (proj1 (errors_leave_the_page
                  {| status := 500; json := None |} {| status := 400; json := None |}
                  "once" KonvaOffset.initial KonvaFit.initial Fabric.initial
                  eq_refl _))).
  simpl. discriminate.
Defined.

(** C8, as amended.  Neither Konva revision guards against an empty
    polyline set.  [drawPreview] builds the [polylines] group with no
    stroke in it and runs the fit on its empty rectangle: 0 / 0 is not
    greater than the target ratio, the height branch is taken, and the
    scale set on the group is (123 - 10) / 0, which is infinite.  The
    group is added to the layer, so a group is live although nothing
    is drawn, and a later submit is not stopped by the empty-state
    guard: it alerts nothing and posts one request. *)
Theorem empty_set_is_fitted_and_added
  (printMode : string) (p1 : KonvaOffset.Page) (p2 : KonvaFit.Page) :
  (let after := fst (KonvaOffset.loadSvg_resume (respond 200 []) p1) in
   exists g,
     liveGroups (KonvaOffset.layer after) = [g] /\
     Konva.children g = [] /\
     Konva.scaleX g = PInf /\ Konva.scaleY g = PInf /\
     alerts (snd (KonvaOffset.printObject printMode after)) = [] /\
     List.length (requests (snd (KonvaOffset.printObject printMode after))) = 1%nat)
  /\
  (let after := fst (KonvaFit.loadSvg_resume (respond 200 []) p2) in
   exists g,
     liveGroups (KonvaFit.layer after) = [g] /\
     Konva.children g = [] /\
     Konva.scaleX g = PInf /\ Konva.scaleY g = PInf /\
     alerts (snd (KonvaFit.printObject printMode after)) = [] /\
     List.length (requests (snd (KonvaFit.printObject printMode after))) = 1%nat).
Proof.
  split; cbv zeta.
  - exists (KonvaOffset.fit (KonvaOffset.buildGroup [])).
    repeat split.
  - exists (KonvaFit.fitGroup (KonvaFit.buildGroup [])
              {| KonvaFit.width := IBB_WIDTH; KonvaFit.height := IBB_HEIGHT |}
              KonvaFit.MARGIN).
    repeat split.
Qed.

(** C8, as first stated, fails on the page as [ready] leaves it. *)
Lemma empty_set_leaves_a_group : ~ EmptySetGuard KonvaOffset.initial.
Proof. unfold EmptySetGuard. vm_compute. discriminate. Qed.

End SubmitClaims.

Section ErrorMessageClaims.

Lemma append_empty (s : string) : (s ++ EmptyString)%string = s.
Proof. induction s as [|c s IH]; simpl; [reflexivity | now rewrite IH]. Qed.

(** C9, as amended.  For every decomposition response with a
    non-success status, status 400 alerts the invalid-file message and
    any other status alerts [Error (HTTP n)] with the numeric status;
    the body of the response is not read, so two failed responses of
    the same status give the same effects.  The optional [details]
    field is extracted by the file-listing page only: its error text
    is [Error fetching SVG files (HTTP n)], followed by a line with
    the details when the body is an object that carries them, and by
    nothing when the body is not JSON. *)
Theorem error_messages
  (st : nat) (body body' : option (jsonBody (list polyline))) (details : string)
  (p : KonvaOffset.Page) (element : Listing.Element) :
  (st < 200 \/ 299 < st)%nat ->
  alerts (snd (KonvaOffset.loadSvg_resume {| status := st; json := body |} p))
    = [if Nat.eqb st 400 then "Error. Did you upload a valid SVG file?"
       else ("Error (HTTP " ++ show_nat st ++ ")")%string]
  /\
  KonvaOffset.loadSvg_resume {| status := st; json := body |} p
    = KonvaOffset.loadSvg_resume {| status := st; json := body' |} p
  /\
  Listing.error_innerText
    (fst (Listing.loadSvgList_resume
            {| status := st; json := Some (JsonObject (Some details)) |} element))
    = (listingError st ++ Listing.newline ++ "Details: " ++ details)%string
  /\
  Listing.error_innerText
    (fst (Listing.loadSvgList_resume {| status := st; json := None |} element))
    = listingError st.
Proof.
  intros Hst.
  assert (Hok : forall A (b : option (jsonBody A)),
             ok {| status := st; json := b |} = false).
  { intros A b. unfold ok. cbn [status].
    destruct Hst as [H | H].
    - apply Nat.leb_gt in H. rewrite H. reflexivity.
    - apply Nat.leb_gt in H. rewrite H. apply andb_false_r. }
  unfold KonvaOffset.loadSvg_resume, Listing.loadSvgList_resume.
  rewrite !Hok. cbn [snd fst Listing.error_innerText json status Listing.detailsSuffix].
  split; [destruct (Nat.eqb st 400); reflexivity|].
  split; [reflexivity|]. split; [reflexivity|].
  unfold listingError. apply append_empty.
Qed.

Lemma error_messages_witness :
  alerts (snd (KonvaOffset.loadSvg_resume {| status := 500; json := None |}
                 KonvaOffset.initial))
  = ["Error (HTTP 500)"].
Proof.
  refine (proj1 (error_messages 500 None None EmptyString
                   KonvaOffset.initial
                   {| Listing.loading_hidden := false; Listing.nofiles_hidden := true;
                      Listing.files_entries := []; Listing.files_hidden := true;
                      Listing.error_innerText := EmptyString; Listing.error_hidden := true |}
                   _)).
  right. repeat constructor.
Defined.

(** C9, as first stated, fails: the details of a failed decomposition
    are shown nowhere. *)
Lemma decomposition_error_drops_details :
  ~ DetailsSurfaced 500 "no such device" KonvaOffset.initial.
Proof. unfold DetailsSurfaced. vm_compute. discriminate. Qed.

End ErrorMessageClaims.

Section SelectionClaims.

Lemma includes_In (nodes : list nat) (node : nat) :
  KonvaFit.includes nodes node = true <-> In node nodes.
Proof.
  unfold KonvaFit.includes. rewrite existsb_exists. split.
  - intros (x & Hx & E). apply Nat.eqb_eq in E. now subst x.
  - intros H. exists node. split; [exact H | apply Nat.eqb_refl].
Qed.

(** C10.  In the click handler of the stage, a click on the empty
    stage clears the selection; a click on a stroke whose parent group
    is not among the nodes of the transformer selects that group, and
    that group alone; a click on a stroke whose parent group is among
    them clears the selection; so a second click on the stroke of a
    group just selected deselects it.  The handler touches nothing
    else. *)
Theorem click_toggles_selection (p : KonvaFit.Page) (parent : nat) :
  KonvaFit.tr_nodes (KonvaFit.onClick KonvaFit.OnStage p) = []
  /\
  (~ In parent (KonvaFit.tr_nodes p) ->
   KonvaFit.tr_nodes (KonvaFit.onClick (KonvaFit.OnShape parent) p) = [parent])
  /\
  (In parent (KonvaFit.tr_nodes p) ->
   KonvaFit.tr_nodes (KonvaFit.onClick (KonvaFit.OnShape parent) p) = [])
  /\
  (~ In parent (KonvaFit.tr_nodes p) ->
   KonvaFit.tr_nodes
     (KonvaFit.onClick (KonvaFit.OnShape parent)
        (KonvaFit.onClick (KonvaFit.OnShape parent) p)) = [])
  /\
  (forall t, KonvaFit.layer (KonvaFit.onClick t p) = KonvaFit.layer p /\
             KonvaFit.svg_text (KonvaFit.onClick t p) = KonvaFit.svg_text p).
Proof.
  assert (Hsel : ~ In parent (KonvaFit.tr_nodes p) ->
                 KonvaFit.onClick (KonvaFit.OnShape parent) p
                 = {| KonvaFit.svg_text := KonvaFit.svg_text p;
                      KonvaFit.layer := KonvaFit.layer p;
                      KonvaFit.tr_nodes := [parent] |}).
  { intros Hno. unfold KonvaFit.onClick.
    destruct (KonvaFit.includes (KonvaFit.tr_nodes p) parent) eqn:E; [|reflexivity].
    apply includes_In in E. contradiction. }
  split; [reflexivity|]. split; [|split; [|split]].
  - intros Hno. now rewrite (Hsel Hno).
  - intros Hin. apply includes_In in Hin. unfold KonvaFit.onClick.
    now rewrite Hin.
  - intros Hno. rewrite (Hsel Hno). unfold KonvaFit.onClick.
    cbn [KonvaFit.tr_nodes].
    assert (E : KonvaFit.includes [parent] parent = true)
      by (apply includes_In; now left).
    now rewrite E.
  - intros [|q]; unfold KonvaFit.onClick; simpl.
    + split; reflexivity.
    + destruct (KonvaFit.includes (KonvaFit.tr_nodes p) q); split; reflexivity.
Qed.

(** A click on a stroke of group 7 while group 3 is selected selects
    group 7; a click on a stroke of group 3 then clears the selection. *)
Lemma click_toggles_selection_witness :
  KonvaFit.tr_nodes
    (KonvaFit.onClick (KonvaFit.OnShape 7)
       {| KonvaFit.svg_text := "<svg/>"; KonvaFit.layer := []; KonvaFit.tr_nodes := [3%nat] |})
  = [7%nat]
  /\
  KonvaFit.tr_nodes
    (KonvaFit.onClick (KonvaFit.OnShape 3)
       {| KonvaFit.svg_text := "<svg/>"; KonvaFit.layer := []; KonvaFit.tr_nodes := [3%nat] |})
  = [].
Proof.
  split.
  - refine (proj1 (proj2 (click_toggles_selection
              {| KonvaFit.svg_text := "<svg/>"; KonvaFit.layer := [];
                 KonvaFit.tr_nodes := [3%nat] |} 7)) _).
    simpl. intros [H | H]; [discriminate H | exact H].
  - refine (proj1 (proj2 (proj2 (click_toggles_selection
              {| KonvaFit.svg_text := "<svg/>"; KonvaFit.layer := [];
                 KonvaFit.tr_nodes := [3%nat] |} 3))) _).
    simpl. left. reflexivity.
Defined.

End SelectionClaims.

(** * The claims about the placement that is submitted *)

Section PlacementClaims.

Lemma scaled_back (a : num) :
  a =n= ((PREVIEW_SCALE_FACTOR * a) / PREVIEW_SCALE_FACTOR)%num.
Proof.
  destruct a as [q| | |]; simpl; auto.
  unfold inject_Z. field.
Qed.

(** C3, as amended.  In the fabric.js revision the submitted offsets
    are the displacement of the group from where it was created,
    [left - _originalLeft] and [top - _originalTop], divided by
    PREVIEW_SCALE_FACTOR.  In the Konva revision with [fitGroup] the
    submitted offsets are the [x()] and [y()] of the group as they
    are: no division is made, since these are device units already,
    the magnification being the scale of the stage, so that they equal
    the position of the group on the canvas divided by
    PREVIEW_SCALE_FACTOR.  In the three revisions the scale factors of
    the group are submitted unchanged. *)
Theorem placement_readout
  (text printMode : string) (i : nat) (g : Konva.Group) (o : Fabric.Object) :
  submitted (Fabric.printEach text printMode o i)
    = [{| svg := text;
          offset_x := ((Fabric.left o - Fabric.toNumber (Fabric._originalLeft o))
                       / PREVIEW_SCALE_FACTOR)%num;
          offset_y := ((Fabric.top o - Fabric.toNumber (Fabric._originalTop o))
                       / PREVIEW_SCALE_FACTOR)%num;
          scale_x := Fabric.scaleX o; scale_y := Fabric.scaleY o;
          mode := printMode |}]
  /\
  submitted (KonvaFit.printEach text printMode g i)
    = [{| svg := text;
          offset_x := Konva.posX g; offset_y := Konva.posY g;
          scale_x := Konva.scaleX g; scale_y := Konva.scaleY g;
          mode := printMode |}]
  /\
  (Konva.posX g =n= (fst (Konva.getAbsolutePosition KonvaFit.stage g)
                     / PREVIEW_SCALE_FACTOR)%num /\
   Konva.posY g =n= (snd (Konva.getAbsolutePosition KonvaFit.stage g)
                     / PREVIEW_SCALE_FACTOR)%num)
  /\
  (map scale_x (submitted (KonvaOffset.printEach text printMode g i))
     = [Konva.scaleX g] /\
   map scale_y (submitted (KonvaOffset.printEach text printMode g i))
     = [Konva.scaleY g]).
Proof.
  split; [reflexivity|]. split; [reflexivity|]. split.
  - split; apply scaled_back.
  - split; reflexivity.
Qed.

(** C3, as first stated, fails on the Konva revisions: for the group
    fitted to one stroke, the offsets submitted are not the offsets of
    the group divided by PREVIEW_SCALE_FACTOR. *)
Lemma konva_offsets_not_divided :
  (let g := KonvaFit.fitGroup (KonvaFit.buildGroup [[pt 0 0; pt 10 0; pt 10 10]])
              {| KonvaFit.width := IBB_WIDTH; KonvaFit.height := IBB_HEIGHT |}
              KonvaFit.MARGIN in
   exists b, submitted (KonvaFit.printEach "<svg/>" "once" g 0) = [b]
             /\ ~ DividesOffsets g b)
  /\
  (let g := KonvaOffset.fit (KonvaOffset.buildGroup [[pt 0 0; pt 10 0; pt 10 10]]) in
   exists b, submitted (KonvaOffset.printEach "<svg/>" "once" g 0) = [b]
             /\ ~ DividesOffsets g b).
Proof.
  split; cbv zeta; eexists; (split; [reflexivity|]);
    intros (Hx & _); vm_compute in Hx; discriminate Hx.
Qed.

(** C5, as amended.  The revisions stop an empty submit with the same
    alert, handle a decomposition response and a submission response
    with the same effects, and each submits the text of the image, the
    print mode and the scale factors of its group unchanged.  The
    offsets are not the same quantity: the Konva revision with
    [fitGroup] submits the position of the group, the fabric.js
    revision the displacement of the group from where it was created,
    divided by PREVIEW_SCALE_FACTOR. *)
Theorem backends_share_messages
  (r : response (list polyline)) (r' : response unit) (text printMode : string)
  (i : nat) (p1 : KonvaOffset.Page) (p2 : KonvaFit.Page) (p3 : Fabric.Page)
  (g : Konva.Group) (o : Fabric.Object) :
  (snd (KonvaOffset.printObject printMode KonvaOffset.initial) = [Alert MSG_NO_OBJECT] /\
   snd (KonvaFit.printObject printMode KonvaFit.initial) = [Alert MSG_NO_OBJECT] /\
   snd (Fabric.printObject printMode Fabric.initial) = [Alert MSG_NO_OBJECT])
  /\
  (snd (KonvaOffset.loadSvg_resume r p1) = snd (KonvaFit.loadSvg_resume r p2) /\
   snd (KonvaFit.loadSvg_resume r p2) = snd (Fabric.loadSvg_resume r p3))
  /\
  (snd (KonvaOffset.printObject_resume printMode r' p1)
     = snd (KonvaFit.printObject_resume printMode r' p2) /\
   snd (KonvaFit.printObject_resume printMode r' p2)
     = snd (Fabric.printObject_resume printMode r' p3))
  /\
  (map (fun b => (svg b, mode b, scale_x b, scale_y b))
       (submitted (KonvaOffset.printEach text printMode g i))
     = [(text, printMode, Konva.scaleX g, Konva.scaleY g)] /\
   map (fun b => (svg b, mode b, scale_x b, scale_y b))
       (submitted (KonvaFit.printEach text printMode g i))
     = [(text, printMode, Konva.scaleX g, Konva.scaleY g)] /\
   map (fun b => (svg b, mode b, scale_x b, scale_y b))
       (submitted (Fabric.printEach text printMode o i))
     = [(text, printMode, Fabric.scaleX o, Fabric.scaleY o)])
  /\
  (map (fun b => (offset_x b, offset_y b))
       (submitted (KonvaFit.printEach text printMode g i))
     = [(Konva.posX g, Konva.posY g)] /\
   map (fun b => (offset_x b, offset_y b))
       (submitted (Fabric.printEach text printMode o i))
     = [(((Fabric.left o - Fabric.toNumber (Fabric._originalLeft o))
          / PREVIEW_SCALE_FACTOR)%num,
         ((Fabric.top o - Fabric.toNumber (Fabric._originalTop o))
          / PREVIEW_SCALE_FACTOR)%num)]).
Proof.
  split; [repeat split|]. split; [|split; [|split]].
  - unfold KonvaOffset.loadSvg_resume, KonvaFit.loadSvg_resume, Fabric.loadSvg_resume.
    destruct (ok r); [destruct (json r) as [[ps | d |]|]|]; split; reflexivity.
  - unfold KonvaOffset.printObject_resume, KonvaFit.printObject_resume,
      Fabric.printObject_resume.
    destruct (Nat.eqb (status r') 204); split; reflexivity.
  - repeat split.
  - split; reflexivity.
Qed.

(** C5, as first stated, fails: for a stroke from (10, 10) to (20, 20),
    submitted as loaded, the Konva revision posts the offset 19 / 2
    and the fabric.js revision the offset 225 / 2. *)
Lemma backends_submit_different_offsets :
  ~ SameSubmission "<svg/>" [[pt 10 10; pt 20 20]].
Proof.
  intros H. unfold SameSubmission in H. vm_compute in H.
  inversion H as [|a b la lb Hab Hrest]. destruct Hab as (Hx & _).
  discriminate Hx.
Qed.

End PlacementClaims.


(** * Further properties: what a submission carries *)

Section SubmissionFacts.

Lemma submitted_app (out1 out2 : list effect) :
  submitted (out1 ++ out2) = submitted out1 ++ submitted out2.
Proof.
  induction out1 as [|e rest IH]; [reflexivity|].
  destruct e as [m | l a | u me [t | b] | w]; simpl; rewrite ?IH; reflexivity.
Qed.

Lemma alerts_app (out1 out2 : list effect) :
  alerts (out1 ++ out2) = alerts out1 ++ alerts out2.
Proof.
  induction out1 as [|e rest IH]; [reflexivity|].
  destruct e; simpl; rewrite ?IH; reflexivity.
Qed.

Lemma requests_app (out1 out2 : list effect) :
  requests (out1 ++ out2) = requests out1 ++ requests out2.
Proof. unfold requests. apply filter_app. Qed.

Lemma forEach_offset (text printMode : string) (objs : list Konva.Group) :
  forall i,
    let out := forEach (KonvaOffset.printEach text printMode) i objs in
    submitted out = map (bodyOffset text printMode) objs /\
    alerts out = [] /\ List.length (requests out) = List.length objs.
Proof.
  induction objs as [|g rest IH]; intros i; cbv zeta; [repeat split|].
  cbn [forEach]. rewrite submitted_app, alerts_app, requests_app, length_app.
  destruct (IH (S i)) as (H1 & H2 & H3). rewrite H1, H2, H3. repeat split.
Qed.

Lemma forEach_fit (text printMode : string) (objs : list Konva.Group) :
  forall i,
    let out := forEach (KonvaFit.printEach text printMode) i objs in
    submitted out = map (bodyFit text printMode) objs /\
    alerts out = [] /\ List.length (requests out) = List.length objs.
Proof.
  induction objs as [|g rest IH]; intros i; cbv zeta; [repeat split|].
  cbn [forEach]. rewrite submitted_app, alerts_app, requests_app, length_app.
  destruct (IH (S i)) as (H1 & H2 & H3). rewrite H1, H2, H3. repeat split.
Qed.

Lemma forEach_fabric (text printMode : string) (objs : list Fabric.Object) :
  forall i,
    let out := forEach (Fabric.printEach text printMode) i objs in
    submitted out = map (bodyFabric text printMode) objs /\
    alerts out = [] /\ List.length (requests out) = List.length objs.
Proof.
  induction objs as [|g rest IH]; intros i; cbv zeta; [repeat split|].
  cbn [forEach]. rewrite submitted_app, alerts_app, requests_app, length_app.
  destruct (IH (S i)) as (H1 & H2 & H3). rewrite H1, H2, H3. repeat split.
Qed.

(** What a click on print does, in the three revisions. *)
Lemma printObject_effects
  (printMode : string)
  (p1 : KonvaOffset.Page) (p2 : KonvaFit.Page) (p3 : Fabric.Page) :
  (let out := snd (KonvaOffset.printObject printMode p1) in
   submitted out
     = map (bodyOffset (KonvaOffset.svg_text p1) printMode)
           (liveGroups (KonvaOffset.layer p1)) /\
   List.length (requests out) = List.length (liveGroups (KonvaOffset.layer p1)) /\
   alerts out = (if Nat.eqb (List.length (requests out)) 0 then [MSG_NO_OBJECT] else []))
  /\
  (let out := snd (KonvaFit.printObject printMode p2) in
   submitted out
     = map (bodyFit (KonvaFit.svg_text p2) printMode)
           (liveGroups (KonvaFit.layer p2)) /\
   List.length (requests out) = List.length (liveGroups (KonvaFit.layer p2)) /\
   alerts out = (if Nat.eqb (List.length (requests out)) 0 then [MSG_NO_OBJECT] else []))
  /\
  (let out := snd (Fabric.printObject printMode p3) in
   submitted out
     = map (bodyFabric (Fabric.svg_text p3) printMode) (Fabric.canvas p3) /\
   List.length (requests out) = List.length (Fabric.canvas p3) /\
   alerts out = (if Nat.eqb (List.length (requests out)) 0 then [MSG_NO_OBJECT] else [])).
Proof.
  split; [|split]; cbv zeta.
  - unfold KonvaOffset.printObject. fold (liveGroups (KonvaOffset.layer p1)).
    destruct (liveGroups (KonvaOffset.layer p1)) as [|g rest] eqn:E.
    + repeat split.
    + cbn [List.length Nat.eqb snd].
      destruct (forEach_offset (KonvaOffset.svg_text p1) printMode (g :: rest) 0)
        as (H1 & H2 & H3).
      rewrite H1, H2, H3. repeat split.
  - unfold KonvaFit.printObject. fold (liveGroups (KonvaFit.layer p2)).
    destruct (liveGroups (KonvaFit.layer p2)) as [|g rest] eqn:E.
    + repeat split.
    + cbn [List.length Nat.eqb snd].
      destruct (forEach_fit (KonvaFit.svg_text p2) printMode (g :: rest) 0)
        as (H1 & H2 & H3).
      rewrite H1, H2, H3. repeat split.
  - unfold Fabric.printObject.
    destruct (Fabric.canvas p3) as [|g rest] eqn:E.
    + repeat split.
    + cbn [List.length Nat.eqb snd].
      destruct (forEach_fabric (Fabric.svg_text p3) printMode (g :: rest) 0)
        as (H1 & H2 & H3).
      rewrite H1, H2, H3. repeat split.
Qed.

(** X3.  In the three revisions a click on print posts one request for
    each live group and nothing else, or the alert that no object is
    loaded and no request; every body posted carries the text of the
    image as it is stored at that moment and the print mode that is
    checked. *)
Theorem submission_carries_text_and_mode
  (printMode : string)
  (p1 : KonvaOffset.Page) (p2 : KonvaFit.Page) (p3 : Fabric.Page) :
  (let out := snd (KonvaOffset.printObject printMode p1) in
   Forall (fun b => svg b = KonvaOffset.svg_text p1 /\ mode b = printMode)
          (submitted out) /\
   List.length (submitted out) = List.length (liveGroups (KonvaOffset.layer p1)) /\
   List.length (requests out) = List.length (liveGroups (KonvaOffset.layer p1)) /\
   alerts out = (if Nat.eqb (List.length (requests out)) 0 then [MSG_NO_OBJECT] else []))
  /\
  (let out := snd (KonvaFit.printObject printMode p2) in
   Forall (fun b => svg b = KonvaFit.svg_text p2 /\ mode b = printMode)
          (submitted out) /\
   List.length (submitted out) = List.length (liveGroups (KonvaFit.layer p2)) /\
   List.length (requests out) = List.length (liveGroups (KonvaFit.layer p2)) /\
   alerts out = (if Nat.eqb (List.length (requests out)) 0 then [MSG_NO_OBJECT] else []))
  /\
  (let out := snd (Fabric.printObject printMode p3) in
   Forall (fun b => svg b = Fabric.svg_text p3 /\ mode b = printMode)
          (submitted out) /\
   List.length (submitted out) = List.length (Fabric.canvas p3) /\
   List.length (requests out) = List.length (Fabric.canvas p3) /\
   alerts out = (if Nat.eqb (List.length (requests out)) 0 then [MSG_NO_OBJECT] else [])).
Proof.
  destruct (printObject_effects printMode p1 p2 p3)
    as ((A1 & A2 & A3) & (B1 & B2 & B3) & (C1 & C2 & C3)).
  cbv zeta in *.
  split; [|split].
  - rewrite A1, length_map. split; [|split; [reflexivity | split; assumption]].
    apply Forall_forall. intros b Hb. apply in_map_iff in Hb.
    destruct Hb as (g & <- & _). split; reflexivity.
  - rewrite B1, length_map. split; [|split; [reflexivity | split; assumption]].
    apply Forall_forall. intros b Hb. apply in_map_iff in Hb.
    destruct Hb as (g & <- & _). split; reflexivity.
  - rewrite C1, length_map. split; [|split; [reflexivity | split; assumption]].
    apply Forall_forall. intros b Hb. apply in_map_iff in Hb.
    destruct Hb as (g & <- & _). split; reflexivity.
Qed.

(** X4.  Reading a file stores its text at once and leaves the preview
    as it is until the response arrives: a click on print in between
    posts the new text with the placement of the drawing that is
    still displayed.  An empty file is stored too, and no request is
    made for it. *)
Theorem submit_between_read_and_response
  (text printMode : string)
  (p1 : KonvaOffset.Page) (p2 : KonvaFit.Page) (p3 : Fabric.Page) :
  (let p' := fst (KonvaOffset.onFileRead text p1) in
   KonvaOffset.layer p' = KonvaOffset.layer p1 /\
   map placement (submitted (snd (KonvaOffset.printObject printMode p')))
     = map placement (submitted (snd (KonvaOffset.printObject printMode p1))) /\
   Forall (fun b => svg b = text)
          (submitted (snd (KonvaOffset.printObject printMode p'))) /\
   requests (snd (KonvaOffset.onFileRead text p1))
     = (if String.eqb text EmptyString then []
        else [Fetch "/preview/" "POST" (PreviewBody text)]))
  /\
  (let p' := fst (KonvaFit.onFileRead text p2) in
   KonvaFit.layer p' = KonvaFit.layer p2 /\
   map placement (submitted (snd (KonvaFit.printObject printMode p')))
     = map placement (submitted (snd (KonvaFit.printObject printMode p2))) /\
   Forall (fun b => svg b = text)
          (submitted (snd (KonvaFit.printObject printMode p'))) /\
   requests (snd (KonvaFit.onFileRead text p2))
     = (if String.eqb text EmptyString then []
        else [Fetch "/preview/" "POST" (PreviewBody text)]))
  /\
  (let p' := fst (Fabric.onFileRead text p3) in
   Fabric.canvas p' = Fabric.canvas p3 /\
   map placement (submitted (snd (Fabric.printObject printMode p')))
     = map placement (submitted (snd (Fabric.printObject printMode p3))) /\
   Forall (fun b => svg b = text)
          (submitted (snd (Fabric.printObject printMode p'))) /\
   requests (snd (Fabric.onFileRead text p3))
     = (if String.eqb text EmptyString then []
        else [Fetch "/preview/" "POST" (PreviewBody text)])).
Proof.
  destruct (printObject_effects printMode
              (fst (KonvaOffset.onFileRead text p1))
              (fst (KonvaFit.onFileRead text p2))
              (fst (Fabric.onFileRead text p3))) as ((A1 & _) & (A2 & _) & (A3 & _)).
  destruct (printObject_effects printMode p1 p2 p3)
    as ((B1 & _) & (B2 & _) & (B3 & _)).
  cbv zeta in *.
  split; [|split].
  - split; [reflexivity|]. rewrite A1, B1. cbn [fst KonvaOffset.onFileRead
      KonvaOffset.layer KonvaOffset.svg_text].
    split; [rewrite !map_map; reflexivity|].
    split; [apply Forall_forall; intros b Hb; apply in_map_iff in Hb;
            destruct Hb as (g & <- & _); reflexivity|].
    unfold KonvaOffset.onFileRead, KonvaOffset.loadSvg_request. cbn [snd KonvaOffset.svg_text].
    destruct (String.eqb text EmptyString); reflexivity.
  - split; [reflexivity|]. rewrite A2, B2. cbn [fst KonvaFit.onFileRead
      KonvaFit.layer KonvaFit.svg_text].
    split; [rewrite !map_map; reflexivity|].
    split; [apply Forall_forall; intros b Hb; apply in_map_iff in Hb;
            destruct Hb as (g & <- & _); reflexivity|].
    unfold KonvaFit.onFileRead, KonvaFit.loadSvg_request. cbn [snd KonvaFit.svg_text].
    destruct (String.eqb text EmptyString); reflexivity.
  - split; [reflexivity|]. rewrite A3, B3. cbn [fst Fabric.onFileRead
      Fabric.canvas Fabric.svg_text].
    split; [rewrite !map_map; reflexivity|].
    split; [apply Forall_forall; intros b Hb; apply in_map_iff in Hb;
            destruct Hb as (g & <- & _); reflexivity|].
    unfold Fabric.onFileRead, Fabric.loadSvg_request. cbn [snd Fabric.svg_text].
    destruct (String.eqb text EmptyString); reflexivity.
Qed.

End SubmissionFacts.

(** * Further properties: what every run of the page keeps *)

Section PageInvariants.

Lemma add_lines_name (f : polyline -> Konva.Line) (pls : list polyline) :
  forall g,
    Konva.name (fold_left (fun group pl => Konva.add group (f pl)) pls g)
    = Konva.name g.
Proof.
  induction pls as [|pl rest IH]; intros g; simpl; [reflexivity|].
  now rewrite IH.
Qed.

Lemma fit_name (g : Konva.Group) : Konva.name (KonvaOffset.fit g) = Konva.name g.
Proof.
  unfold KonvaOffset.fit. cbv zeta. rewrite scale_branches. reflexivity.
Qed.

Lemma fitGroup_name (g : Konva.Group) (bounds : KonvaFit.Size) (margin : num) :
  Konva.name (KonvaFit.fitGroup g bounds margin) = Konva.name g.
Proof.
  unfold KonvaFit.fitGroup. cbv zeta. rewrite scale_branches. reflexivity.
Qed.

Lemma offset_step_keeps (e : KonvaOffset.event) (p : KonvaOffset.Page) :
  previewShape (KonvaOffset.layer p) ->
  previewShape (KonvaOffset.layer (fst (KonvaOffset.step e p))).
Proof.
  intros Hp. destruct e as [text | r | m | m r]; simpl.
  - exact Hp.
  - unfold KonvaOffset.loadSvg_resume.
    destruct (ok r); [|exact Hp].
    destruct (json r) as [[ps | d |]|]; simpl; try (now left); try exact Hp.
    right. eexists. split; [reflexivity|].
    rewrite fit_name. unfold KonvaOffset.buildGroup. now rewrite add_lines_name.
  - unfold KonvaOffset.printObject.
    destruct (Nat.eqb _ 0); exact Hp.
  - unfold KonvaOffset.printObject_resume.
    destruct (Nat.eqb _ 204); exact Hp.
Qed.

Lemma fit_step_keeps (e : KonvaFit.event) (p : KonvaFit.Page) :
  singleGroup (KonvaFit.layer p) ->
  singleGroup (KonvaFit.layer (fst (KonvaFit.step e p))).
Proof.
  intros Hp. destruct e as [text | r | m | m r | t]; simpl.
  - exact Hp.
  - unfold KonvaFit.loadSvg_resume.
    destruct (ok r); [|exact Hp].
    destruct (json r) as [[ps | d |]|]; simpl; try (now left); try exact Hp.
    right. eexists. split; [reflexivity|].
    rewrite fitGroup_name. unfold KonvaFit.buildGroup. now rewrite add_lines_name.
  - unfold KonvaFit.printObject.
    destruct (Nat.eqb _ 0); exact Hp.
  - unfold KonvaFit.printObject_resume.
    destruct (Nat.eqb _ 204); exact Hp.
  - destruct t as [|parent]; simpl; [exact Hp|].
    destruct (negb _); exact Hp.
Qed.

Lemma fabric_step_keeps (e : Fabric.event) (p : Fabric.Page) :
  (List.length (Fabric.canvas p) <= 1)%nat ->
  (List.length (Fabric.canvas (fst (Fabric.step e p))) <= 1)%nat.
Proof.
  intros Hp. destruct e as [text | r | m | m r]; simpl.
  - exact Hp.
  - unfold Fabric.loadSvg_resume.
    destruct (ok r); [|exact Hp].
    destruct (json r) as [[ps | d |]|]; simpl; try lia; exact Hp.
  - unfold Fabric.printObject.
    destruct (Nat.eqb _ 0); exact Hp.
  - unfold Fabric.printObject_resume.
    destruct (Nat.eqb _ 204); exact Hp.
Qed.

Lemma offset_run_keeps (es : list KonvaOffset.event) :
  forall p, previewShape (KonvaOffset.layer p) ->
            previewShape (KonvaOffset.layer (fst (KonvaOffset.run es p))).
Proof.
  induction es as [|e rest IH]; intros p Hp; simpl; [exact Hp|].
  pose proof (offset_step_keeps e p Hp) as H1.
  destruct (KonvaOffset.step e p) as [p1 out1]. simpl in H1.
  specialize (IH p1 H1).
  destruct (KonvaOffset.run rest p1) as [p2 out2]. exact IH.
Qed.

Lemma fit_run_keeps (es : list KonvaFit.event) :
  forall p, singleGroup (KonvaFit.layer p) ->
            singleGroup (KonvaFit.layer (fst (KonvaFit.run es p))).
Proof.
  induction es as [|e rest IH]; intros p Hp; simpl; [exact Hp|].
  pose proof (fit_step_keeps e p Hp) as H1.
  destruct (KonvaFit.step e p) as [p1 out1]. simpl in H1.
  specialize (IH p1 H1).
  destruct (KonvaFit.run rest p1) as [p2 out2]. exact IH.
Qed.

Lemma fabric_run_keeps (es : list Fabric.event) :
  forall p, (List.length (Fabric.canvas p) <= 1)%nat ->
            (List.length (Fabric.canvas (fst (Fabric.run es p))) <= 1)%nat.
Proof.
  induction es as [|e rest IH]; intros p Hp; simpl; [exact Hp|].
  pose proof (fabric_step_keeps e p Hp) as H1.
  destruct (Fabric.step e p) as [p1 out1]. simpl in H1.
  specialize (IH p1 H1).
  destruct (Fabric.run rest p1) as [p2 out2]. exact IH.
Qed.

Lemma previewShape_live (l : Konva.Layer) :
  previewShape l -> (List.length (liveGroups l) <= 1)%nat.
Proof.
  intros [-> | (g & -> & Hn)]; [simpl; lia|].
  unfold liveGroups. simpl. rewrite Hn. simpl. lia.
Qed.

Lemma singleGroup_live (l : Konva.Layer) :
  singleGroup l -> (List.length (liveGroups l) <= 1)%nat.
Proof.
  intros [-> | (g & -> & Hn)]; [simpl; lia|].
  unfold liveGroups. simpl. rewrite Hn. simpl. lia.
Qed.

(** X5.  Whatever files are read, whatever responses arrive and in
    whatever order, the preview never holds more than one drawing.  In
    static/js/scripts.js the layer is empty or holds one group named
    [polylines] followed by the transformer attached to it, with
    rotation disabled; in the revision with [fitGroup] it is empty or
    holds that one group; the fabric.js canvas holds one object at
    most. *)
Theorem one_drawing_at_most
  (es1 : list KonvaOffset.event) (es2 : list KonvaFit.event)
  (es3 : list Fabric.event) :
  previewShape (KonvaOffset.layer (fst (KonvaOffset.run es1 KonvaOffset.initial)))
  /\
  singleGroup (KonvaFit.layer (fst (KonvaFit.run es2 KonvaFit.initial)))
  /\
  (List.length (Fabric.canvas (fst (Fabric.run es3 Fabric.initial))) <= 1)%nat.
Proof.
  split; [|split].
  - apply offset_run_keeps. now left.
  - apply fit_run_keeps. now left.
  - apply fabric_run_keeps. simpl. lia.
Qed.

End PageInvariants.

Section PageInvariantsMore.

(** X6.  From the page as [ready] leaves it, and after any run of
    events, a click on print posts one request at most. *)
Theorem one_request_per_click
  (printMode : string)
  (es1 : list KonvaOffset.event) (es2 : list KonvaFit.event)
  (es3 : list Fabric.event) :
  (List.length
     (requests (snd (KonvaOffset.printObject printMode
                       (fst (KonvaOffset.run es1 KonvaOffset.initial))))) <= 1)%nat
  /\
  (List.length
     (requests (snd (KonvaFit.printObject printMode
                       (fst (KonvaFit.run es2 KonvaFit.initial))))) <= 1)%nat
  /\
  (List.length
     (requests (snd (Fabric.printObject printMode
                       (fst (Fabric.run es3 Fabric.initial))))) <= 1)%nat.
Proof.
  destruct (printObject_effects printMode
              (fst (KonvaOffset.run es1 KonvaOffset.initial))
              (fst (KonvaFit.run es2 KonvaFit.initial))
              (fst (Fabric.run es3 Fabric.initial)))
    as ((_ & A & _) & (_ & B & _) & (_ & C & _)).
  cbv zeta in *. rewrite A, B, C.
  split; [|split].
  - apply previewShape_live, offset_run_keeps. now left.
  - apply singleGroup_live, fit_run_keeps. now left.
  - apply fabric_run_keeps. simpl. lia.
Qed.

Lemma step_selection (e : KonvaFit.event) (p : KonvaFit.Page) :
  KonvaFit.tr_nodes (fst (KonvaFit.step e p))
  = match e with
    | KonvaFit.Click t => select (KonvaFit.tr_nodes p) t
    | _ => KonvaFit.tr_nodes p
    end.
Proof.
  destruct e as [text | r | m | m r | t]; simpl.
  - reflexivity.
  - unfold KonvaFit.loadSvg_resume.
    destruct (ok r); [|reflexivity].
    destruct (json r) as [[ps | d |]|]; reflexivity.
  - unfold KonvaFit.printObject. destruct (Nat.eqb _ 0); reflexivity.
  - unfold KonvaFit.printObject_resume. destruct (Nat.eqb _ 204); reflexivity.
  - destruct t as [|parent]; simpl; [reflexivity|].
    destruct (KonvaFit.includes (KonvaFit.tr_nodes p) parent); reflexivity.
Qed.

Lemma select_short (ts : list KonvaFit.target) :
  forall nodes, (List.length nodes <= 1)%nat ->
                (List.length (fold_left select ts nodes) <= 1)%nat.
Proof.
  induction ts as [|t rest IH]; intros nodes Hn; simpl; [exact Hn|].
  apply IH. destruct t as [|parent]; simpl; [lia|].
  destruct (KonvaFit.includes nodes parent); simpl; lia.
Qed.

(** X7.  In the revision with the click handler, the selection is
    decided by the clicks alone: after any run of events the
    transformer is attached to what the clicks of that run select, in
    their order, whatever was loaded, displayed or submitted in
    between; loading a new drawing does not clear it.  From the page
    as [ready] leaves it the transformer is attached to one node at
    most. *)
Theorem selection_follows_clicks (es : list KonvaFit.event) (p : KonvaFit.Page) :
  KonvaFit.tr_nodes (fst (KonvaFit.run es p))
    = fold_left select (clicks es) (KonvaFit.tr_nodes p)
  /\
  (List.length (KonvaFit.tr_nodes (fst (KonvaFit.run es KonvaFit.initial))) <= 1)%nat.
Proof.
  assert (H : forall es p,
             KonvaFit.tr_nodes (fst (KonvaFit.run es p))
             = fold_left select (clicks es) (KonvaFit.tr_nodes p)).
  { clear. induction es as [|e rest IH]; intros p; simpl; [reflexivity|].
    pose proof (step_selection e p) as Hs.
    destruct (KonvaFit.step e p) as [p1 out1]. simpl in Hs.
    specialize (IH p1).
    destruct (KonvaFit.run rest p1) as [p2 out2]. simpl in *.
    rewrite IH, Hs. destruct e; reflexivity. }
  split; [apply H|].
  rewrite H. apply select_short. simpl. lia.
Qed.

End PageInvariantsMore.

(** * Further properties: the placement that is read back *)

Section PlacementRoundTrip.



End PlacementRoundTrip.


(** * Further properties: bodies that are not what was expected *)

Section UnexpectedBodies.

(** X10.  A decomposition response with a success status whose body is
    JSON but no array, an object or [null], clears the preview and
    draws nothing: the layer is destroyed before the polylines are
    read.  A success status with a body that is not JSON leaves the
    page as it was.  In both cases an exception escapes and no alert
    is shown. *)
Theorem success_without_polylines
  (r : response (list polyline))
  (p1 : KonvaOffset.Page) (p2 : KonvaFit.Page) (p3 : Fabric.Page) :
  ok r = true ->
  (forall polylines, json r <> Some (Payload polylines)) ->
  (KonvaOffset.layer (fst (KonvaOffset.loadSvg_resume r p1))
     = match json r with Some _ => [] | None => KonvaOffset.layer p1 end /\
   KonvaFit.layer (fst (KonvaFit.loadSvg_resume r p2))
     = match json r with Some _ => [] | None => KonvaFit.layer p2 end /\
   Fabric.canvas (fst (Fabric.loadSvg_resume r p3))
     = match json r with Some _ => [] | None => Fabric.canvas p3 end)
  /\
  (alerts (snd (KonvaOffset.loadSvg_resume r p1)) = [] /\
   alerts (snd (KonvaFit.loadSvg_resume r p2)) = [] /\
   alerts (snd (Fabric.loadSvg_resume r p3)) = [])
  /\
  (exists what,
      snd (KonvaOffset.loadSvg_resume r p1) = [Throw what] /\
      snd (KonvaFit.loadSvg_resume r p2) = [Throw what] /\
      snd (Fabric.loadSvg_resume r p3) = [Throw what]).
Proof.
  intros Hok Hnot.
  unfold KonvaOffset.loadSvg_resume, KonvaFit.loadSvg_resume, Fabric.loadSvg_resume.
  rewrite Hok.
  destruct (json r) as [[ps | d |]|].
  - exfalso. apply (Hnot ps). reflexivity.
  - repeat split. eexists. repeat split.
  - repeat split. eexists. repeat split.
  - repeat split. eexists. repeat split.
Qed.

Lemma success_without_polylines_witness :
  KonvaOffset.layer
    (fst (KonvaOffset.loadSvg_resume
            {| status := 200; json := Some JsonNull |}
            {| KonvaOffset.svg_text := "<svg/>";
               KonvaOffset.layer := KonvaOffset.drawPreview [] [[pt 0 0; pt 10 10]] |}))
  = [].
Proof.
  refine (proj1 (proj1 (success_without_polylines
                          {| status := 200; json := Some JsonNull |}
                          {| KonvaOffset.svg_text := "<svg/>";
                             KonvaOffset.layer :=
                               KonvaOffset.drawPreview [] [[pt 0 0; pt 10 10]] |}
                          KonvaFit.initial Fabric.initial eq_refl _))).
  intros polylines. discriminate.
Defined.

(** X11.  When the list of files cannot be fetched and the body of the
    response is JSON without a [details] property, an object or the
    array of a payload, the error text ends with the line
    [Details: undefined]; when the body is [null] or not JSON the text
    is the first line alone.  In every case the loading text is
    hidden, the error is shown and the list is left as it was. *)
Theorem listing_error_without_details
  (st : nat) (files : list string) (element : Listing.Element) :
  (st < 200 \/ 299 < st)%nat ->
  let after body :=
    fst (Listing.loadSvgList_resume {| status := st; json := body |} element) in
  (Listing.error_innerText (after (Some (JsonObject None)))
     = (listingError st ++ Listing.newline ++ "Details: undefined")%string /\
   Listing.error_innerText (after (Some (Payload files)))
     = (listingError st ++ Listing.newline ++ "Details: undefined")%string /\
   Listing.error_innerText (after (Some JsonNull)) = listingError st /\
   Listing.error_innerText (after None) = listingError st)
  /\
  (forall body,
      Listing.loading_hidden (after body) = true /\
      Listing.error_hidden (after body) = false /\
      Listing.files_entries (after body) = Listing.files_entries element /\
      Listing.files_hidden (after body) = Listing.files_hidden element /\
      Listing.nofiles_hidden (after body) = Listing.nofiles_hidden element).
Proof.
  intros Hst after.
  assert (Hok : forall b : option (jsonBody (list string)),
             ok {| status := st; json := b |} = false).
  { intros b. unfold ok. cbn [status].
    destruct Hst as [H | H].
    - apply Nat.leb_gt in H. rewrite H. reflexivity.
    - apply Nat.leb_gt in H. rewrite H. apply andb_false_r. }
  unfold after, Listing.loadSvgList_resume.
  split.
  - rewrite !Hok. cbn [fst Listing.error_innerText json Listing.detailsSuffix].
    split; [reflexivity|]. split; [reflexivity|].
    split; apply append_empty.
  - intros body. rewrite Hok. repeat split.
Qed.

Lemma listing_error_without_details_witness :
  Listing.error_innerText
    (fst (Listing.loadSvgList_resume
            {| status := 500; json := Some (JsonObject None) |}
            {| Listing.loading_hidden := false; Listing.nofiles_hidden := true;
               Listing.files_entries := []; Listing.files_hidden := true;
               Listing.error_innerText := EmptyString; Listing.error_hidden := true |}))
  = (listingError 500 ++ Listing.newline ++ "Details: undefined")%string.
Proof.
  refine (proj1 (proj1 (listing_error_without_details 500 []
                          {| Listing.loading_hidden := false;
                             Listing.nofiles_hidden := true;
                             Listing.files_entries := []; Listing.files_hidden := true;
                             Listing.error_innerText := EmptyString;
                             Listing.error_hidden := true |} _))).
  right. repeat constructor.
Defined.

(** X12.  When the list of files is fetched, the loading text is
    hidden and exactly one of two things is revealed: the text that
    there are no files, when the list is empty, and otherwise the list,
    to which the names are appended in the order received.  The error
    text is left as it was, and so is whichever of the two is not
    revealed. *)
Theorem listing_success_reveals_one
  (r : response (list string)) (files : list string) (element : Listing.Element) :
  ok r = true -> json r = Some (Payload files) ->
  let after := fst (Listing.loadSvgList_resume r element) in
  Listing.loading_hidden after = true /\
  Listing.error_hidden after = Listing.error_hidden element /\
  Listing.error_innerText after = Listing.error_innerText element /\
  (files = [] ->
   Listing.nofiles_hidden after = false /\
   Listing.files_hidden after = Listing.files_hidden element /\
   Listing.files_entries after = Listing.files_entries element) /\
  (files <> [] ->
   Listing.files_hidden after = false /\
   Listing.nofiles_hidden after = Listing.nofiles_hidden element /\
   Listing.files_entries after = Listing.files_entries element ++ files).
Proof.
  intros Hok Hjson after. unfold after, Listing.loadSvgList_resume.
  rewrite Hok, Hjson.
  destruct files as [|f rest]; simpl.
  - split; [reflexivity|]. split; [reflexivity|]. split; [reflexivity|].
    split; [intros _; repeat split | intros H; now contradiction H].
  - split; [reflexivity|]. split; [reflexivity|]. split; [reflexivity|].
    split; [intros H; discriminate H | intros _; repeat split].
Qed.

Lemma listing_success_reveals_one_witness :
  Listing.loading_hidden
    (fst (Listing.loadSvgList_resume (respond 200 ["a.svg"; "b.svg"])
            {| Listing.loading_hidden := false; Listing.nofiles_hidden := true;
               Listing.files_entries := []; Listing.files_hidden := true;
               Listing.error_innerText := EmptyString; Listing.error_hidden := true |}))
  = true.
Proof.
  exact (proj1 (listing_success_reveals_one (respond 200 ["a.svg"; "b.svg"])
                  ["a.svg"; "b.svg"]
                  {| Listing.loading_hidden := false; Listing.nofiles_hidden := true;
                     Listing.files_entries := []; Listing.files_hidden := true;
                     Listing.error_innerText := EmptyString;
                     Listing.error_hidden := true |} eq_refl eq_refl)).
Defined.

End UnexpectedBodies.

(** * Further properties: the configuration and [ready] *)

Section ConfigFacts.

Lemma showEntries_appends (entries : list (string * string)) (config : Config.Object) :
  forall shown,
    Config.showEntries entries config shown
    = shown ++ flat_map (fun item => [Config.Dt (snd item);
                                      Config.Dd (Config.get config (fst item))])
                        entries.
Proof.
  unfold Config.showEntries.
  induction entries as [|item rest IH]; intros shown; simpl.
  - now rewrite app_nil_r.
  - rewrite IH. rewrite <- app_assoc. reflexivity.
Qed.

Lemma get_bound (config : Config.Object) (key value : string) :
  NoDup (map fst config) -> In (key, value) config ->
  Config.get config key = value.
Proof.
  induction config as [|[k v] rest IH]; intros Hnd Hin; [destruct Hin|].
  simpl. inversion Hnd as [|? ? Hk Hrest]; subst.
  destruct Hin as [E | Hin].
  - injection E as -> ->. now rewrite String.eqb_refl.
  - destruct (String.eqb k key) eqn:E.
    + apply String.eqb_eq in E. subst k. exfalso. apply Hk.
      apply in_map_iff. exists (key, value). split; [reflexivity | exact Hin].
    + now apply IH.
Qed.

Lemma get_missing (config : Config.Object) (key : string) :
  ~ In key (map fst config) -> Config.get config key = "undefined".
Proof.
  induction config as [|[k v] rest IH]; intros Hno; [reflexivity|].
  simpl. destruct (String.eqb k key) eqn:E.
  - apply String.eqb_eq in E. subst k. exfalso. apply Hno. now left.
  - apply IH. intros H. apply Hno. now right.
Qed.

(** X13.  When the configuration is fetched, six items are appended to
    the list, in a fixed order: the labels Device, SVG Directory and
    Start drawing every n seconds, each followed by the value of the
    properties [device], [svg_dir] and [interval_seconds]; a property
    that the configuration has is shown with its value, wherever it
    stands among the others, and one that it lacks is shown as
    [undefined].  The loading text is hidden, the list is shown and
    the error is left as it was. *)
Theorem config_success_shows_entries
  (r : response Config.Object) (config : Config.Object) (element : Config.Element) :
  ok r = true -> json r = Some (Payload config) ->
  NoDup (map fst config) ->
  let after := fst (Config.loadConfig_resume r element) in
  (exists device svg_dir interval,
      Config.items after
        = Config.items element
          ++ [Config.Dt "Device"; Config.Dd device;
              Config.Dt "SVG Directory"; Config.Dd svg_dir;
              Config.Dt "Start drawing every n seconds"; Config.Dd interval] /\
      (forall v, In ("device", v) config -> device = v) /\
      (forall v, In ("svg_dir", v) config -> svg_dir = v) /\
      (forall v, In ("interval_seconds", v) config -> interval = v) /\
      (~ In "device" (map fst config) -> device = "undefined") /\
      (~ In "svg_dir" (map fst config) -> svg_dir = "undefined") /\
      (~ In "interval_seconds" (map fst config) -> interval = "undefined"))
  /\
  Config.loading_hidden after = true /\
  Config.items_hidden after = false /\
  Config.error_hidden after = Config.error_hidden element /\
  Config.error_innerText after = Config.error_innerText element.
Proof.
  intros Hok Hjson Hnd after. unfold after, Config.loadConfig_resume.
  rewrite Hok, Hjson. cbn [fst Config.items Config.loading_hidden Config.items_hidden
                               Config.error_hidden Config.error_innerText].
  split; [|repeat split].
  exists (Config.get config "device"), (Config.get config "svg_dir"),
         (Config.get config "interval_seconds").
  split; [apply showEntries_appends|].
  split; [intros v Hv; now apply get_bound|].
  split; [intros v Hv; now apply get_bound|].
  split; [intros v Hv; now apply get_bound|].
  split; [apply get_missing|]. split; apply get_missing.
Qed.

Lemma config_success_shows_entries_witness :
  Config.items_hidden
    (fst (Config.loadConfig_resume
            (respond 200 [("svg_dir", "/srv/svg"); ("device", "/dev/ttyUSB0")])
            {| Config.loading_hidden := false; Config.items := [];
               Config.items_hidden := true;
               Config.error_innerText := EmptyString; Config.error_hidden := true |}))
  = false.
Proof.
  refine (proj1 (proj2 (proj2 (config_success_shows_entries
            (respond 200 [("svg_dir", "/srv/svg"); ("device", "/dev/ttyUSB0")])
            [("svg_dir", "/srv/svg"); ("device", "/dev/ttyUSB0")]
            {| Config.loading_hidden := false; Config.items := [];
               Config.items_hidden := true;
               Config.error_innerText := EmptyString; Config.error_hidden := true |}
            eq_refl eq_refl _)))).
  repeat constructor; simpl; intuition discriminate.
Defined.

(** X14.  When the configuration cannot be fetched, the error text is
    [Error fetching config (HTTP n)] whatever the body of the response
    holds: no details are read, unlike for the list of files.  The
    loading text is hidden, the error is shown and the list of items
    is left as it was. *)
Theorem config_error_ignores_body
  (st : nat) (body : option (jsonBody Config.Object)) (element : Config.Element) :
  (st < 200 \/ 299 < st)%nat ->
  let after := fst (Config.loadConfig_resume {| status := st; json := body |} element) in
  Config.error_innerText after
    = ("Error fetching config (HTTP " ++ show_nat st ++ ")")%string /\
  Config.error_hidden after = false /\
  Config.loading_hidden after = true /\
  Config.items after = Config.items element /\
  Config.items_hidden after = Config.items_hidden element.
Proof.
  intros Hst after.
  assert (Hok : ok {| status := st; json := body |} = false).
  { unfold ok. cbn [status].
    destruct Hst as [H | H].
    - apply Nat.leb_gt in H. rewrite H. reflexivity.
    - apply Nat.leb_gt in H. rewrite H. apply andb_false_r. }
  unfold after, Config.loadConfig_resume. rewrite Hok. repeat split.
Qed.

Lemma config_error_ignores_body_witness :
  Config.error_innerText
    (fst (Config.loadConfig_resume
            {| status := 500; json := Some (JsonObject (Some "no such device")) |}
            {| Config.loading_hidden := false; Config.items := [];
               Config.items_hidden := true;
               Config.error_innerText := EmptyString; Config.error_hidden := true |}))
  = ("Error fetching config (HTTP " ++ show_nat 500 ++ ")")%string.
Proof.
  refine (proj1 (config_error_ignores_body 500 (Some (JsonObject (Some "no such device")))
            {| Config.loading_hidden := false; Config.items := [];
               Config.items_hidden := true;
               Config.error_innerText := EmptyString; Config.error_hidden := true |} _)).
  right. repeat constructor.
Defined.

End ConfigFacts.

Section ReadyFacts.

(** X15.  [ready] has its function called exactly once: at once when
    the document is no longer loading, and otherwise when
    [DOMContentLoaded] fires, after the functions registered before
    it.  A document that is not loading is left as it was. *)
Theorem ready_calls_once {F : Type} (fn : F) (document : Common.Document F) :
  let after := fst (Common.ready fn document) in
  let called := snd (Common.ready fn document) in
  (if Common.isLoading (Common.readyState document)
   then called = [] /\
        snd (Common.fireDOMContentLoaded after) = Common.listeners document ++ [fn] /\
        snd (Common.ready fn (fst (Common.fireDOMContentLoaded after))) = [fn]
   else called = [fn] /\ after = document).
Proof.
  unfold Common.ready.
  destruct (Common.isLoading (Common.readyState document)); simpl; repeat split.
Qed.

End ReadyFacts.


(** * Further properties: responses in the fabric.js revision *)

Section FabricResponses.

Lemma run_snoc_fabric (es : list Fabric.event) (e : Fabric.event) :
  forall p,
    fst (Fabric.run (es ++ [e]) p) = fst (Fabric.step e (fst (Fabric.run es p))).
Proof.
  induction es as [|e0 rest IH]; intros p; simpl.
  - destruct (Fabric.step e p). reflexivity.
  - destruct (Fabric.step e0 p) as [p1 out1].
    specialize (IH p1).
    destruct (Fabric.run (rest ++ [e]) p1) as [p2 out2].
    destruct (Fabric.run rest p1) as [p3 out3].
    simpl in *. exact IH.
Qed.

(** X18.  In the fabric.js revision too a successful decomposition
    response is applied whenever it arrives: whatever events came
    before, once it has been handled the canvas holds the one group
    fitted to its polylines, and the stored text of the image is what
    it was. *)
Theorem fabric_response_replaces_canvas
  (r : response (list polyline)) (polylines : list polyline)
  (es : list Fabric.event) (p : Fabric.Page) :
  ok r = true -> json r = Some (Payload polylines) ->
  let before := fst (Fabric.run es p) in
  let after := fst (Fabric.run (es ++ [Fabric.PreviewArrived r]) p) in
  Fabric.canvas after = [Fabric.fit (Fabric.buildGroup polylines)] /\
  Fabric.svg_text after = Fabric.svg_text before.
Proof.
  intros Hok Hjson. cbv zeta. rewrite run_snoc_fabric. simpl.
  unfold Fabric.loadSvg_resume. rewrite Hok, Hjson. split; reflexivity.
Qed.

Lemma fabric_response_replaces_canvas_witness :
  Fabric.canvas
    (fst (Fabric.run [Fabric.FileRead "<svg/>";
                      Fabric.PreviewArrived (respond 200 [[pt 0 0; pt 10 10]])]
                     Fabric.initial))
  = [Fabric.fit (Fabric.buildGroup [[pt 0 0; pt 10 10]])].
Proof.
  exact (proj1 (fabric_response_replaces_canvas
                  (respond 200 [[pt 0 0; pt 10 10]]) [[pt 0 0; pt 10 10]]
                  [Fabric.FileRead "<svg/>"] Fabric.initial eq_refl eq_refl)).
Defined.

End FabricResponses.
